(** * AiQo (fitmind): the daily metrics and recommendation engine of App.tsx

    A shallow embedding of the pure calculators, the meal-plan generator,
    the day record, the nudge and halo functions and the [completeDay]
    handler of [src/App.tsx], with the properties stated about them.

    Number model.  A JavaScript [number] is embedded as an exact rational
    ([Q]): [+ - * /] are the field operations, comparisons are the order of
    [Q], [Math.round x] is [floor (x + 1/2)] (ties go up, as ECMAScript
    defines it), [Math.floor] is [Qfloor], [Math.max] and [Math.min] are
    [Qmax] and [Qmin].  Every division in the embedded code has a divisor
    that is a non-zero literal or a [Math.max(1, _)], so no quotient by zero
    is ever formed.  Binary64 rounding error, NaN and the infinities are
    outside the model.

    Effects.  [Math.random()] is a draw from an explicit stream that is
    threaded through the generator ([Rand] monad); the key-value storage is
    a finite map from keys to strings; the React state cells touched by
    [completeDay] are fields of an explicit session state. *)

From Stdlib Require Import ZArith QArith Qround Qminmax Lia Lqa Ascii.
From stdpp Require Import base option list strings pretty gmap.

Local Open Scope Q_scope.

(** ** Numbers *)

Module Math.

Definition round (x : Q) : Z := Qfloor (x + (1 # 2)).

Definition floor (x : Q) : Z := Qfloor x.

Definition max (a b : Q) : Q := Qmax a b.

Definition min (a b : Q) : Q := Qmin a b.

End Math.

(** ** Types *)

Inductive Gender := male | female.

Inductive Goal := cut | bulk | maintain.

Inductive ActivityLevel := sedentary | light | moderate | active | athlete.

Record DietaryPref := {
  halal : option bool;
  vegan : option bool;
  vegetarian : option bool;
  glutenFree : option bool;
  lactoseFree : option bool;
}.

Record MealTimes := { breakfast : string; lunch : string; dinner : string }.

Record SleepTime := { start : string; end_ : string }.

Record OnboardingData := {
  gender : Gender;
  age : Q;
  height : Q;
  weight : Q;
  goal : Goal;
  activity : ActivityLevel;
  mealTimes : MealTimes;
  sleepTime : SleepTime;
  diet : DietaryPref;
}.

(** ** Utils and calculators *)

Definition clamp (n min max : Q) : Q := Math.max min (Math.min max n).

Definition calcBMR (gender : Gender) (weightKg heightCm ageYears : Q) : Q :=
  match gender with
  | male => 10 * weightKg + 6.25 * heightCm - 5 * ageYears + 5
  | female => 10 * weightKg + 6.25 * heightCm - 5 * ageYears - 161
  end.

Definition activityMultiplier (level : ActivityLevel) : Q :=
  match level with
  | sedentary => 1.2
  | light => 1.375
  | moderate => 1.55
  | active => 1.725
  | athlete => 1.9
  end.

Definition tdeeFrom (onb : OnboardingData) : Z :=
  let bmr := calcBMR (gender onb) (weight onb) (height onb) (age onb) in
  let tdee := bmr * activityMultiplier (activity onb) in
  match goal onb with
  | cut => Math.round (tdee - 400)
  | bulk => Math.round (tdee + 300)
  | maintain => Math.round tdee
  end.

Definition waterTargetMl (onb : OnboardingData) : Z :=
  let base := weight onb * 35 in
  let bump :=
    match activity onb with
    | sedentary => 0
    | light => 200
    | moderate => 400
    | active => 600
    | athlete => 800
    end in
  Math.round (base + bump).

(** The profile the application starts from when nothing is stored; it is
    also the profile of the source's own runtime assertions. *)
Definition defaults : OnboardingData := {|
  gender := male;
  age := 24;
  height := 175;
  weight := 90;
  goal := cut;
  activity := light;
  mealTimes := {| breakfast := "08:30"; lunch := "14:00"; dinner := "20:00" |};
  sleepTime := {| start := "00:00"; end_ := "07:00" |};
  diet := {| halal := Some true; vegan := None; vegetarian := None;
             glutenFree := None; lactoseFree := None |};
|}.

(** ** Comparisons

    The relational operators of the source on numbers, as boolean tests. *)

Definition ltb (a b : Q) : bool := negb (Qle_bool b a).

Definition gtb (a b : Q) : bool := ltb b a.

Definition geb (a b : Q) : bool := Qle_bool b a.

(** ** Randomness

    [Math.random()] returns a number of the half-open unit interval; the
    successive draws of a run are an explicit stream, and code that draws
    is a state transformer over it. *)

Record Draw := {
  draw_val :> Q;
  draw_range : Qle_bool 0 draw_val && ltb draw_val 1 = true;
}.

Definition Draws : Type := nat -> Draw.

Definition Rand (A : Type) : Type := Draws -> A * Draws.

#[global] Instance Rand_ret : MRet Rand := fun A (a : A) s => (a, s).

#[global] Instance Rand_bind : MBind Rand :=
  fun A B (f : A -> Rand B) (m : Rand A) s => f (m s).1 (m s).2.

#[global] Instance Rand_fmap : FMap Rand :=
  fun A B (f : A -> B) (m : Rand A) s => (f (m s).1, (m s).2).

Definition random : Rand Q :=
  fun s => (draw_val (s 0%nat), fun n => s (S n)).

(** ** Meals *)

Record Meal := {
  id_ : string;
  title : string;
  kcal : Q;
  protein : Q;
  carbs : Q;
  fat : Q;
  timeMins : Z;
  ingredients : list string;
  steps_ : list string;
  tags : option (list string);
}.

(** [formatTime] is called on [timeMins], a whole number of minutes; the
    template literal prints it in decimal. *)
Definition formatTime (mins : Z) : string :=
  if (mins <? 60)%Z then pretty mins +:+ " د"
  else
    let h := (mins / 60)%Z in
    let m := Z.rem mins 60 in
    pretty h +:+ " س " +:+ pretty m +:+ " د".

Module pantry.

Definition proteins : list string :=
  ["صدر دجاج"; "بيض"; "تونة"; "حمص"; "عدس"; "لبن يوناني"].

Definition carbs : list string :=
  ["رز بسمتي"; "شوفان"; "خبز عربي أسمر"; "بطاطا"; "كينوا"; "تمر"].

Definition fats : list string :=
  ["أفوكادو"; "زيت زيتون"; "مكسرات"; "طحينة"].

Definition veggies : list string :=
  ["خس"; "سبانخ"; "طماطة"; "خيار"; "فلفل"; "بروكلي";
   "جزر"].

End pantry.

(** [pick arr n]: the loop runs while fewer than [n] elements are out and
    the copy is not empty, so at most [n] times; each turn splices the
    element at index [floor (random * length)] out of the copy.  The index
    is below the length because the draw is below 1, so the last branch is
    never taken. *)
Fixpoint pick {T : Type} (copy : list T) (n : nat) : Rand (list T) :=
  match n, copy with
  | O, _ | _, [] => mret []
  | S n', _ :: _ =>
      r ← random;
      let i := Z.to_nat (Math.floor (r * inject_Z (Z.of_nat (length copy)))) in
      match copy !! i with
      | Some x => out ← pick (delete i copy) n'; mret (x :: out)
      | None => mret []
      end
  end.

(** [arr[0]] of a list of strings, as a template literal prints it. *)
Definition first (l : list string) : string := default "undefined" (head l).

Section Generator.

(** [Number.prototype.toString(36)], the base-36 rendering of a draw. *)
Variable toString36 : Q -> string.

Definition id : Rand string :=
  r ← random;
  let s := toString36 r in
  mret (String.substring 2 (String.length s - 2) s).

Definition buildMeal (title : string) (kcal p c f : Q) : Rand Meal :=
  prot ← first <$> pick pantry.proteins 1;
  carb ← first <$> pick pantry.carbs 1;
  fat ← first <$> pick pantry.fats 1;
  vegs ← pick pantry.veggies 2;
  i ← id;
  t ← random;
  mret {|
    id_ := i;
    title := title;
    kcal := kcal;
    protein := p;
    carbs := c;
    fat := f;
    timeMins := 15 + Math.floor (t * 15);
    ingredients := [prot; carb; fat] ++ vegs;
    steps_ :=
      ["حضّر المكوّنات: " +:+ prot +:+ " + " +:+ carb +:+ " + " +:+ fat
         +:+ " + " +:+ String.concat "، " vegs;
       "اطبخ البروتين على نار متوسطة 8–10 د";
       "اسلق/سخّن الكارب حسب التعليمات";
       "رتّب الصحن وأضف الخضار والصلصة"];
    tags := Some ["halal"];
  |}.

Definition generateMealsForDay (tdee : Q) (goal : Goal)
  : Rand (list Meal * list Meal) :=
  let dayKcal := tdee in
  let mainKcal := Math.round (dayKcal * 0.75) in
  let snackKcal := dayKcal - inject_Z mainKcal in
  let mealK := Math.round (inject_Z mainKcal / 3) in
  let snackK := Math.round (snackKcal / 2) in
  m1 ← buildMeal "فطور متوازن" (inject_Z mealK) 30 50 15;
  m2 ← buildMeal "غداء مُرضي" (inject_Z mealK) 35 55 18;
  m3 ← buildMeal "عشاء خفيف" (inject_Z mealK) 28 45 12;
  s1 ← buildMeal "سناك 1" (inject_Z snackK) 12 15 8;
  s2 ← buildMeal "سناك 2" (inject_Z snackK) 10 18 6;
  mret ([m1; m2; m3], [s1; s2]).

End Generator.

(** ** Storage keys and the storage shim *)

Module K.

Definition onboarding : string := "aiqo_onboarding_v2".

Definition day (d : string) : string := "aiqo_day_" +:+ d.

Definition streak : string := "aiqo_streak_v2".

Definition journal (d : string) : string := "aiqo_journal_" +:+ d.

End K.

(** The three backends of the shim share one contract: [getItem] answers
    the stored string or [null], [setItem] replaces, [removeItem] deletes. *)
Module KVStorage.

Definition getItem (k : string) (m : gmap string string) : option string :=
  m !! k.

Definition setItem (k v : string) (m : gmap string string)
  : gmap string string := <[k := v]> m.

Definition removeItem (k : string) (m : gmap string string)
  : gmap string string := delete k m.

End KVStorage.

(** A [string | null] in a condition: [null] and the empty string are
    falsy. *)
Definition truthy (v : option string) : bool :=
  match v with
  | None => false
  | Some s => negb (String.eqb s "")
  end.

(** ** Day model *)

Record DayData := {
  date : string;
  sleepPct : Q;
  sittingHrs : Q;
  steps : Q;
  stepsGoal : Q;
  waterMl : Q;
  waterTarget : Q;
  kcalConsumed : Q;
  kcalTarget : Q;
  meals : list Meal;
  snacks : list Meal;
  prayerDone : bool;
  workoutDone : bool;
}.

(** [{ ...d, ...{ meals, snacks } }] *)
Definition spread_meals (d : DayData) (ms : list Meal * list Meal) : DayData := {|
  date := date d;
  sleepPct := sleepPct d;
  sittingHrs := sittingHrs d;
  steps := steps d;
  stepsGoal := stepsGoal d;
  waterMl := waterMl d;
  waterTarget := waterTarget d;
  kcalConsumed := kcalConsumed d;
  kcalTarget := kcalTarget d;
  meals := ms.1;
  snacks := ms.2;
  prayerDone := prayerDone d;
  workoutDone := workoutDone d;
|}.

(** ** Nudges and halo *)

Module Nudge.

Definition water : string := "كأس مي الآن ينعش جسمك 💧".

Definition walk : string := "امشِ 10 دقايق — مزاجك يشكرك 🚶‍♂️".

Definition snack : string := "سناك بروتين خفيف قبل التمرين 💪".

Definition prayer : string := "ركعتين خفيفة تنوّر يومك 🕊️".

Definition stretch : string := "قف دقيقة وتمدد — ظهرِك أهم 🙆‍♂️".

Definition keep_going : string := "استمر… تقدمك واضح اليوم ✨".

End Nudge.

Definition pickNudge (day : DayData) : string :=
  let leftKcal := kcalTarget day - kcalConsumed day in
  let waterPct := waterMl day / Math.max 1 (waterTarget day) in
  if ltb waterPct 0.5 then Nudge.water
  else if ltb (steps day) (stepsGoal day / 2) then Nudge.walk
  else if gtb leftKcal 300 then Nudge.snack
  else if negb (prayerDone day) then Nudge.prayer
  else if gtb (sittingHrs day) 8 then Nudge.stretch
  else Nudge.keep_going.

Definition haloScore (day : DayData) : Z :=
  let water := clamp (waterMl day / Math.max 1 (waterTarget day) * 100) 0 100 in
  let sleep := clamp (sleepPct day) 0 100 in
  let steps := clamp (steps day / Math.max 1 (stepsGoal day) * 100) 0 100 in
  let faith := if prayerDone day then 100 else 30 in
  let sport := if workoutDone day then 100 else 40 in
  Math.round ((water + sleep + steps + faith + sport) / 5).

(** ** Root App: the state cells and the handlers over them *)

Section Handlers.

Variable toString36 : Q -> string.

(** [today] is [TODAY_KEY()], the ISO date of the clock. *)
Definition initDay (today : string) (onb : OnboardingData) : Rand DayData :=
  let tdee := tdeeFrom onb in
  ms ← generateMealsForDay toString36 (inject_Z tdee) (goal onb);
  mret {|
    date := today;
    sleepPct := 70;
    sittingHrs := 7;
    steps := 2500;
    stepsGoal := match activity onb with sedentary => 6000 | _ => 9000 end;
    waterMl := 0;
    waterTarget := inject_Z (waterTargetMl onb);
    kcalConsumed := 0;
    kcalTarget := inject_Z tdee;
    meals := ms.1;
    snacks := ms.2;
    prayerDone := false;
    workoutDone := false;
  |}.

(** The updater that [onRegenerate] hands to [setDay]. *)
Definition onRegenerate (onb : OnboardingData) (d : option DayData)
  : Rand (option DayData) :=
  match d with
  | Some d =>
      ms ← generateMealsForDay toString36 (inject_Z (tdeeFrom onb)) (goal onb);
      mret (Some (spread_meals d ms))
  | None => mret None
  end.

End Handlers.

(** The cells of [App] that [completeDay] reads and writes, the storage
    behind [KVStorage] and the alerts shown so far. *)
Record App := {
  st_day : option DayData;
  st_streak : Z;
  storage : gmap string string;
  alerts : list (string * string);
}.

(** The test [ok] of [completeDay]. *)
Definition ok (day : DayData) : bool :=
  geb (waterMl day) (waterTarget day * 0.9)
  && geb (steps day) (stepsGoal day * 0.9).

(** [yesterday] is the ISO date of the clock 24 hours earlier. *)
Definition completeDay (yesterday : string) (a : App) : App :=
  match st_day a with
  | None => a
  | Some day =>
      let prevKey := K.day yesterday in
      let hadPrev := KVStorage.getItem prevKey (storage a) in
      if ok day then
        let next := if truthy hadPrev then (st_streak a + 1)%Z else 1%Z in
        {| st_day := st_day a;
           st_streak := next;
           storage := KVStorage.setItem K.streak (pretty next) (storage a);
           alerts := alerts a ++ [("🔥 سجّل الإنجاز", "اليوم مكتمل — نقاط نور بجيبك!")] |}
      else
        {| st_day := st_day a;
           st_streak := st_streak a;
           storage := storage a;
           alerts := alerts a ++ [("لسّه نكمل باچر", "اشرب مي وخطوة صغيرة ونقفل اليوم ✨")] |}
  end.

(** ** Vocabulary of the statements *)

(** A target that is zero or at least one.  Every whole, non-negative
    number is one ([whole_zero_or_ge1]), so this covers the step goal and
    the water target of a day record, which are rounded at creation. *)
Definition zero_or_ge1 (t : Q) : Prop := t == 0 \/ 1 <= t.

Definition whole (q : Q) : Prop := exists n : Z, (0 <= n)%Z /\ q == inject_Z n.

Module Spec.


End Spec.

(** The nudge table as the specification words it: the hydration rule on
    the plain ratio of water to target, then rules 2 to 6, first match
    wins. *)
Module NudgeTable.

Definition later_rules (day : DayData) : string :=
  if ltb (steps day) (stepsGoal day / 2) then Nudge.walk
  else if gtb (kcalTarget day - kcalConsumed day) 300 then Nudge.snack
  else if negb (prayerDone day) then Nudge.prayer
  else if gtb (sittingHrs day) 8 then Nudge.stretch
  else Nudge.keep_going.

Definition selectNudge (day : DayData) : string :=
  if ltb (waterMl day / waterTarget day) 0.5 then Nudge.water
  else later_rules day.

End NudgeTable.

(** Two day records that hold the same numbers, texts, lists and flags. *)
Definition same_day (d d' : DayData) : Prop :=
  date d = date d' /\ sleepPct d == sleepPct d'
  /\ sittingHrs d == sittingHrs d' /\ steps d == steps d'
  /\ stepsGoal d == stepsGoal d' /\ waterMl d == waterMl d'
  /\ waterTarget d == waterTarget d' /\ kcalConsumed d == kcalConsumed d'
  /\ kcalTarget d == kcalTarget d' /\ meals d = meals d'
  /\ snacks d = snacks d' /\ prayerDone d = prayerDone d'
  /\ workoutDone d = workoutDone d'.

(** [d'] is [d] with water, steps or sleep raised, or a flag set, against
    the same targets. *)
Definition improves (d d' : DayData) : Prop :=
  waterTarget d == waterTarget d' /\ stepsGoal d == stepsGoal d'
  /\ waterMl d <= waterMl d' /\ steps d <= steps d'
  /\ sleepPct d <= sleepPct d'
  /\ (prayerDone d = true -> prayerDone d' = true)
  /\ (workoutDone d = true -> workoutDone d' = true).

(** All five inputs of the halo at their best. *)
Definition perfect (d : DayData) : Prop :=
  Math.max 1 (waterTarget d) <= waterMl d
  /\ Math.max 1 (stepsGoal d) <= steps d
  /\ 100 <= sleepPct d
  /\ prayerDone d = true /\ workoutDone d = true.

(** All five inputs of the halo short of their best. *)
Definition mediocre (d : DayData) : Prop :=
  waterMl d < Math.max 1 (waterTarget d)
  /\ steps d < Math.max 1 (stepsGoal d)
  /\ sleepPct d < 100
  /\ prayerDone d = false /\ workoutDone d = false.

(** The sum of the source's own check:
    [[...meals, ...snacks].reduce((s, m) => s + m.kcal, 0)]. *)
Definition total_kcal (ms : list Meal) : Q :=
  foldl (fun s m => s + kcal m) 0 ms.

(** The day record of the source's own runtime assertions. *)
Definition base : DayData := {|
  date := "2025-01-01";
  sleepPct := 50;
  sittingHrs := 10;
  steps := 1000;
  stepsGoal := 8000;
  waterMl := 0;
  waterTarget := 2000;
  kcalConsumed := 0;
  kcalTarget := 2000;
  meals := [];
  snacks := [];
  prayerDone := false;
  workoutDone := false;
|}.

(** [{ ...base, waterMl: 2000, steps: 8000, prayerDone: true,
       workoutDone: true, sleepPct: 90 }] *)
Definition base_improved : DayData := {|
  date := date base;
  sleepPct := 90;
  sittingHrs := sittingHrs base;
  steps := 8000;
  stepsGoal := stepsGoal base;
  waterMl := 2000;
  waterTarget := waterTarget base;
  kcalConsumed := kcalConsumed base;
  kcalTarget := kcalTarget base;
  meals := meals base;
  snacks := snacks base;
  prayerDone := true;
  workoutDone := true;
|}.

(** [base_improved] with a full night's sleep. *)
Definition base_perfect : DayData := {|
  date := date base;
  sleepPct := 100;
  sittingHrs := sittingHrs base;
  steps := 8000;
  stepsGoal := stepsGoal base;
  waterMl := 2000;
  waterTarget := waterTarget base;
  kcalConsumed := kcalConsumed base;
  kcalTarget := kcalTarget base;
  meals := meals base;
  snacks := snacks base;
  prayerDone := true;
  workoutDone := true;
|}.

(** [{ ...base, waterMl: 200, waterTarget: 2000 }], the low-water day of
    the source's nudge assertion. *)
Definition base_low_water : DayData := {|
  date := date base;
  sleepPct := sleepPct base;
  sittingHrs := sittingHrs base;
  steps := steps base;
  stepsGoal := stepsGoal base;
  waterMl := 200;
  waterTarget := 2000;
  kcalConsumed := kcalConsumed base;
  kcalTarget := kcalTarget base;
  meals := meals base;
  snacks := snacks base;
  prayerDone := prayerDone base;
  workoutDone := workoutDone base;
|}.

(** A day that is perfect but for its water: every later rule of the
    nudge table is silent on it. *)
Definition perfect_but_water : DayData := {|
  date := "2025-01-01";
  sleepPct := 100;
  sittingHrs := 2;
  steps := 9000;
  stepsGoal := 9000;
  waterMl := 1000;
  waterTarget := 3350;
  kcalConsumed := 2183;
  kcalTarget := 2183;
  meals := [];
  snacks := [];
  prayerDone := true;
  workoutDone := true;
|}.

(** A day whose water target is zero, with and without a first glass. *)
Definition no_target (water : Q) : DayData := {|
  date := "2025-01-01";
  sleepPct := 70;
  sittingHrs := 7;
  steps := 2500;
  stepsGoal := 9000;
  waterMl := water;
  waterTarget := 0;
  kcalConsumed := 0;
  kcalTarget := 2183;
  meals := [];
  snacks := [];
  prayerDone := false;
  workoutDone := false;
|}.

(** A day at exactly nine tenths of both targets, nothing eaten. *)
Definition nine_tenths : DayData := {|
  date := "2025-01-01";
  sleepPct := 70;
  sittingHrs := 7;
  steps := 8100;
  stepsGoal := 9000;
  waterMl := 3015;
  waterTarget := 3350;
  kcalConsumed := 0;
  kcalTarget := 2183;
  meals := [];
  snacks := [];
  prayerDone := false;
  workoutDone := false;
|}.

(** The same water and steps on a day that differs in every other field. *)
Definition nine_tenths_other : DayData := {|
  date := "2025-01-02";
  sleepPct := 20;
  sittingHrs := 12;
  steps := 8100;
  stepsGoal := 9000;
  waterMl := 3015;
  waterTarget := 3350;
  kcalConsumed := 5000;
  kcalTarget := 1500;
  meals := [];
  snacks := [];
  prayerDone := true;
  workoutDone := true;
|}.

(** A session on [day] with a streak of [s] over the storage [m]. *)
Definition session (day : DayData) (s : Z) (m : gmap string string) : App := {|
  st_day := Some day;
  st_streak := s;
  storage := m;
  alerts := [];
|}.

(** A storage that holds a record for the day before. *)
Definition with_yesterday : gmap string string :=
  {[ K.day "2024-12-31" := "{}" ]}.

(** ** The rest of the application

    The handlers of the screens, the timers, the counters and the effects
    of [App], over the definitions above. *)

(** *** One-field updates of a day: [{ ...day, field: v }] *)

Definition with_steps (v : Q) (d : DayData) : DayData := {|
  date := date d; sleepPct := sleepPct d; sittingHrs := sittingHrs d;
  steps := v; stepsGoal := stepsGoal d; waterMl := waterMl d;
  waterTarget := waterTarget d; kcalConsumed := kcalConsumed d;
  kcalTarget := kcalTarget d; meals := meals d; snacks := snacks d;
  prayerDone := prayerDone d; workoutDone := workoutDone d;
|}.

Definition with_waterMl (v : Q) (d : DayData) : DayData := {|
  date := date d; sleepPct := sleepPct d; sittingHrs := sittingHrs d;
  steps := steps d; stepsGoal := stepsGoal d; waterMl := v;
  waterTarget := waterTarget d; kcalConsumed := kcalConsumed d;
  kcalTarget := kcalTarget d; meals := meals d; snacks := snacks d;
  prayerDone := prayerDone d; workoutDone := workoutDone d;
|}.

Definition with_kcalConsumed (v : Q) (d : DayData) : DayData := {|
  date := date d; sleepPct := sleepPct d; sittingHrs := sittingHrs d;
  steps := steps d; stepsGoal := stepsGoal d; waterMl := waterMl d;
  waterTarget := waterTarget d; kcalConsumed := v;
  kcalTarget := kcalTarget d; meals := meals d; snacks := snacks d;
  prayerDone := prayerDone d; workoutDone := workoutDone d;
|}.



(** *** HomeScreen: the two derived figures and the buttons *)

Module HomeScreen.

Definition waterPct (day : DayData) : Q :=
  Math.min 100
    (inject_Z (Math.round (waterMl day / Math.max 1 (waterTarget day) * 100))).

Definition leftKcal (day : DayData) : Q :=
  Math.max 0 (kcalTarget day - kcalConsumed day).

(** The buttons "+500" and "+1k". *)
Definition steps_500 (day : DayData) : DayData :=
  with_steps (steps day + 500) day.

Definition steps_1k (day : DayData) : DayData :=
  with_steps (steps day + 1000) day.

(** The buttons "+250ml", "+500ml" and the reset button. *)
Definition water_250 (day : DayData) : DayData :=
  with_waterMl (waterMl day + 250) day.

Definition water_500 (day : DayData) : DayData :=
  with_waterMl (waterMl day + 500) day.

Definition water_reset (day : DayData) : DayData := with_waterMl 0 day.

(** The "eaten" button beside the meal [m]. *)
Definition ate (m : Meal) (day : DayData) : DayData :=
  with_kcalConsumed (kcalConsumed day + kcal m) day.

End HomeScreen.

(** *** Counter: the minus and plus buttons over a whole value *)

Module Counter.

Definition minus (value step : Z) : Z := Z.max 0 (value - step).

Definition plus (value step : Z) : Z := (value + step)%Z.

End Counter.

(** *** GymScreen: the rest timer and the workout button

    [timer] is the state cell, in whole seconds; [ticking] says that the
    interval held by [intervalRef] is live.  [tick] is one firing of the
    interval callback; a cleared interval does not fire. *)

Module GymScreen.

Record Rest := { timer : Z; ticking : bool }.

Definition startRest (rest : Z) (g : Rest) : Rest :=
  {| timer := rest; ticking := true |}.

Definition tick (g : Rest) : Rest :=
  if ticking g then
    if (timer g <=? 1)%Z then {| timer := 0; ticking := false |}
    else {| timer := timer g - 1; ticking := true |}
  else g.

(** The label of the rest button. *)
Definition label (g : Rest) : string :=
  if (timer g =? 0)%Z then "ابدأ الراحة" else "الراحة: " +:+ pretty (timer g).


End GymScreen.

(** [String.prototype.padStart] with a one-character filler. *)
Definition padStart (targetLength : nat) (fill : Ascii.ascii) (s : string)
  : string :=
  Nat.iter (targetLength - String.length s) (String fill) s.

(** *** KitchenScreen: the cook timer

    As for the rest timer, with the alert the callback raises when the
    countdown ends. *)

Module KitchenScreen.

Record Cook := {
  timer : Z;
  ticking : bool;
  shown : list (string * string);
}.

Definition startCook (m : Meal) (k : Cook) : Cook :=
  {| timer := timeMins m * 60; ticking := true; shown := shown k |}.

Definition tick (k : Cook) : Cook :=
  if ticking k then
    if (timer k <=? 1)%Z then
      {| timer := 0; ticking := false;
         shown := shown k ++ [("بالهناء", "خلصت الوجبة!")] |}
    else {| timer := timer k - 1; ticking := true; shown := shown k |}
  else k.

(** The stop button: [setTimer(0)]. *)
Definition stop (k : Cook) : Cook :=
  {| timer := 0; ticking := ticking k; shown := shown k |}.

(** The timer line, rendered while [timer] is not zero. *)
Definition display (k : Cook) : option string :=
  if (timer k =? 0)%Z then None
  else Some ("المؤقّت: " +:+ pretty (timer k / 60)%Z +:+ ":"
             +:+ padStart 2 "0"%char (pretty (Z.rem (timer k) 60))).

End KitchenScreen.

(** *** CaptainScreen: the quick buttons *)

Module CaptainScreen.


Definition water_now (day : DayData) : DayData :=
  with_waterMl (waterMl day + 250) day.

Definition walk_10 (day : DayData) : DayData :=
  with_steps (steps day + 1000) day.

End CaptainScreen.

(** *** OnboardingModal: the chips

    A chip reports [!value] when pressed, and the handlers of the modal
    act on [true] only. *)

#[global] Instance Gender_eq_dec : EqDecision Gender.
Proof. solve_decision. Defined.

#[global] Instance Goal_eq_dec : EqDecision Goal.
Proof. solve_decision. Defined.

#[global] Instance ActivityLevel_eq_dec : EqDecision ActivityLevel.
Proof. solve_decision. Defined.

Module OnboardingModal.

Definition press_gender (g : Gender) (data : OnboardingData) : OnboardingData :=
  let value := bool_decide (gender data = g) in
  if negb value then
    {| gender := g; age := age data; height := height data;
       weight := weight data; goal := goal data; activity := activity data;
       mealTimes := mealTimes data; sleepTime := sleepTime data;
       diet := diet data |}
  else data.

Definition press_goal (g : Goal) (data : OnboardingData) : OnboardingData :=
  let value := bool_decide (goal data = g) in
  if negb value then
    {| gender := gender data; age := age data; height := height data;
       weight := weight data; goal := g; activity := activity data;
       mealTimes := mealTimes data; sleepTime := sleepTime data;
       diet := diet data |}
  else data.

Definition press_activity (l : ActivityLevel) (data : OnboardingData)
  : OnboardingData :=
  let value := bool_decide (activity data = l) in
  if negb value then
    {| gender := gender data; age := age data; height := height data;
       weight := weight data; goal := goal data; activity := l;
       mealTimes := mealTimes data; sleepTime := sleepTime data;
       diet := diet data |}
  else data.

End OnboardingModal.

(** *** The effects of [App], the onboarding handler and the journal

    [JSON.stringify] and [JSON.parse] on the stored shapes are taken as
    given; a parse that answers [None] is a [SyntaxError], which nothing
    in the source catches, so the effect stops where it is raised.
    [Number] is taken on the text under the streak key. *)

Record JSON := {
  stringify_onb : OnboardingData -> string;
  parse_onb : string -> option OnboardingData;
  stringify_day : DayData -> string;
  parse_day : string -> option DayData;
  stringify_journal : Z -> string -> string;
}.

(** The cells of [App] with the profile and the flag of the modal. *)
Record Root := {
  cells : App;
  st_onb : option OnboardingData;
  showOnboarding : bool;
}.

(** [App] as [useState] initialises it, over a storage. *)
Definition initial (m : gmap string string) : Root := {|
  cells := {| st_day := None; st_streak := 0; storage := m; alerts := [] |};
  st_onb := None;
  showOnboarding := false;
|}.

Section Effects.

Variable toString36 : Q -> string.

Variable json : JSON.

Variable Number : string -> Z.

(** The effect that runs once when [App] mounts. *)
Definition mount (today : string) (r : Root) : Rand Root :=
  let a := cells r in
  let saved := KVStorage.getItem K.onboarding (storage a) in
  if negb (truthy saved) then
    d ← initDay toString36 today defaults;
    mret {| cells := {| st_day := Some d; st_streak := st_streak a;
                        storage := storage a; alerts := alerts a |};
            st_onb := Some defaults;
            showOnboarding := true |}
  else
    match saved ≫= parse_onb json with
    | None => mret r
    | Some parsed =>
        let dk := K.day today in
        let savedDay := KVStorage.getItem dk (storage a) in
        let s := KVStorage.getItem K.streak (storage a) in
        let streak :=
          match s with
          | Some t => if truthy s then Number t else 0%Z
          | None => 0%Z
          end in
        let loaded (d : DayData) : Root :=
          {| cells := {| st_day := Some d; st_streak := streak;
                         storage := storage a; alerts := alerts a |};
             st_onb := Some parsed;
             showOnboarding := showOnboarding r |} in
        if truthy savedDay then
          match savedDay ≫= parse_day json with
          | None =>
              mret {| cells := a; st_onb := Some parsed;
                      showOnboarding := showOnboarding r |}
          | Some d => mret (loaded d)
          end
        else
          d ← initDay toString36 today parsed;
          mret (loaded d)
    end.

(** The effect that runs whenever the day cell changes. *)
Definition persist (a : App) : App :=
  match st_day a with
  | Some day =>
      {| st_day := st_day a; st_streak := st_streak a;
         storage :=
           KVStorage.setItem (K.day (date day)) (stringify_day json day)
             (storage a);
         alerts := alerts a |}
  | None => a
  end.

(** [onClose] of the onboarding modal: [data] is the edited profile of
    the save button, or nothing for the close button.  The modal is only
    rendered once the profile cell is set. *)
Definition onClose (today : string) (data : option OnboardingData) (r : Root)
  : Rand Root :=
  match st_onb r with
  | Some onb =>
      let merged := default onb data in
      let a := cells r in
      d ← initDay toString36 today merged;
      mret {| cells :=
                {| st_day := Some d; st_streak := st_streak a;
                   storage :=
                     KVStorage.setItem K.onboarding (stringify_onb json merged)
                       (storage a);
                   alerts := alerts a |};
              st_onb := Some merged;
              showOnboarding := false |}
  | None => mret r
  end.

(** [saveJournal] of the captain screen. *)
Definition saveJournal (today : string) (mood : Z) (note : string) (a : App)
  : App :=
  let key := K.journal today in
  {| st_day := st_day a; st_streak := st_streak a;
     storage :=
       KVStorage.setItem key (stringify_journal json mood note) (storage a);
     alerts := alerts a ++ [("تم الحفظ", "يومياتك محفوظة.")] |}.

End Effects.

(** *** Vocabulary of the further statements *)

Definition with_goal (g : Goal) (onb : OnboardingData) : OnboardingData := {|
  gender := gender onb; age := age onb; height := height onb;
  weight := weight onb; goal := g; activity := activity onb;
  mealTimes := mealTimes onb; sleepTime := sleepTime onb; diet := diet onb;
|}.

Definition with_activity (l : ActivityLevel) (onb : OnboardingData)
  : OnboardingData := {|
  gender := gender onb; age := age onb; height := height onb;
  weight := weight onb; goal := goal onb; activity := l;
  mealTimes := mealTimes onb; sleepTime := sleepTime onb; diet := diet onb;
|}.

Definition with_weight (w : Q) (onb : OnboardingData) : OnboardingData := {|
  gender := gender onb; age := age onb; height := height onb;
  weight := w; goal := goal onb; activity := activity onb;
  mealTimes := mealTimes onb; sleepTime := sleepTime onb; diet := diet onb;
|}.

(** The rank of an activity level, in the order of the type. *)
Definition tier (l : ActivityLevel) : Z :=
  match l with
  | sedentary => 0
  | light => 1
  | moderate => 2
  | active => 3
  | athlete => 4
  end.

(** The "eaten" button pressed once beside each meal of a list. *)
Definition eat_all (ms : list Meal) (day : DayData) : DayData :=
  foldl (fun d m => HomeScreen.ate m d) day ms.

(** A run whose draws are all one half, with the text of that draw in
    base 36. *)
Definition half : Draw := {| draw_val := 0.5; draw_range := eq_refl |}.

Definition halves : Draws := fun _ => half.

Definition base36_half (q : Q) : string := "0.i".

(** A codec that knows one profile and one day, and one that rejects
    every text. *)
Definition toy_json : JSON := {|
  stringify_onb := fun _ => "{onb}";
  parse_onb := fun _ => Some defaults;
  stringify_day := fun _ => "{day}";
  parse_day := fun _ => Some base;
  stringify_journal := fun _ note => note;
|}.

Definition rejecting_json : JSON := {|
  stringify_onb := fun _ => "{onb}";
  parse_onb := fun _ => None;
  stringify_day := fun _ => "{day}";
  parse_day := fun _ => None;
  stringify_journal := fun _ note => note;
|}.

(** A meal that takes 20 minutes. *)
Definition twenty_minutes : Meal := {|
  id_ := "i"; title := "t"; kcal := 600; protein := 30; carbs := 50;
  fat := 15; timeMins := 20; ingredients := []; steps_ := [];
  tags := None;
|}.

(** A press of one of the two buttons of a counter. *)
Inductive Press := Minus | Plus.

Definition press (step : Z) (value : Z) (p : Press) : Z :=
  match p with
  | Minus => Counter.minus value step
  | Plus => Counter.plus value step
  end.

(** The seconds of the timer line as two digits. *)
Definition two_digits (z : Z) : string :=
  if (z <? 10)%Z then "0" +:+ pretty z else pretty z.

(** A cook timer at rest. *)
Definition idle : KitchenScreen.Cook :=
  {| KitchenScreen.timer := 0; KitchenScreen.ticking := false;
     KitchenScreen.shown := [] |}.

(** [Number] on the text of a streak of seven, and storages that hold a
    profile, a profile with a streak, and a profile with a record for the
    first of January. *)
Definition seven (t : string) : Z := 7.

Definition with_profile : gmap string string :=
  {[ K.onboarding := "{onb}" ]}.

Definition with_profile_and_streak : gmap string string :=
  <[ K.streak := "7" ]> with_profile.

Definition with_profile_and_today : gmap string string :=
  <[ K.day "2025-01-01" := "{day}" ]> with_profile.

(** The application with the modal open over a perfect day. *)
Definition editing : Root := {|
  cells := session base_perfect 4 with_profile;
  st_onb := Some defaults;
  showOnboarding := true;
|}.

(** * Properties *)

(** ** Facts about comparisons *)

Lemma ltb_lt (a b : Q) : ltb a b = true <-> a < b.
Proof.
  unfold ltb. rewrite negb_true_iff, <- not_true_iff_false, Qle_bool_iff.
  split; [apply Qnot_le_lt | apply Qlt_not_le].
Qed.

Lemma ltb_ge (a b : Q) : ltb a b = false <-> b <= a.
Proof. unfold ltb. now rewrite negb_false_iff, Qle_bool_iff. Qed.

Lemma gtb_gt (a b : Q) : gtb a b = true <-> b < a.
Proof. apply ltb_lt. Qed.

Lemma geb_ge (a b : Q) : geb a b = true <-> b <= a.
Proof. apply Qle_bool_iff. Qed.

(** ** Facts about rounding *)

Section Rounding.

Lemma floor_unique (x : Q) (z : Z) :
  inject_Z z <= x -> x < inject_Z (z + 1) -> Qfloor x = z.
Proof.
  intros Hlo Hhi.
  pose proof (Qfloor_le x) as Fl.
  pose proof (Qlt_floor x) as Fu.
  assert (z < Qfloor x + 1)%Z
    by (rewrite Zlt_Qlt; eapply Qle_lt_trans; eassumption).
  assert (Qfloor x < z + 1)%Z
    by (rewrite Zlt_Qlt; eapply Qle_lt_trans; eassumption).
  lia.
Qed.

Lemma floor_add_Z (x : Q) (n : Z) : Qfloor (x + inject_Z n) = (Qfloor x + n)%Z.
Proof.
  apply floor_unique.
  - rewrite inject_Z_plus. apply Qplus_le_l, Qfloor_le.
  - replace (Qfloor x + n + 1)%Z with ((Qfloor x + 1) + n)%Z by lia.
    rewrite inject_Z_plus. apply Qplus_lt_l, Qlt_floor.
Qed.

Lemma round_add_Z (x : Q) (n : Z) :
  Math.round (x + inject_Z n) = (Math.round x + n)%Z.
Proof.
  unfold Math.round. rewrite <- floor_add_Z.
  apply Qfloor_comp. ring.
Qed.

Lemma round_mono (x y : Q) : x <= y -> (Math.round x <= Math.round y)%Z.
Proof.
  intros H. apply Qfloor_resp_le. now apply Qplus_le_l.
Qed.

Lemma round_Z (n : Z) : Math.round (inject_Z n) = n.
Proof.
  apply floor_unique.
  - rewrite <- (Qplus_0_r (inject_Z n)) at 1. now apply Qplus_le_r.
  - rewrite inject_Z_plus. now apply Qplus_lt_r.
Qed.

Lemma round_bounds (x : Q) (lo hi : Z) :
  inject_Z lo <= x -> x <= inject_Z hi -> (lo <= Math.round x <= hi)%Z.
Proof.
  intros Hlo Hhi. rewrite <- (round_Z lo), <- (round_Z hi).
  split; now apply round_mono.
Qed.

End Rounding.

(** ** The daily energy target *)

(** C1.  For every profile, [tdeeFrom] is the rounded product of the
    Mifflin-St Jeor rate and the activity multiplier, followed by the
    integer goal offset (cut: minus 400, bulk: plus 300, maintain: 0); the
    source rounds after the offset, which is the same number because the
    offset is an integer.  For the profile male, 24 years, 175 cm, 90 kg,
    cut, light, the target is [round (1878.75 * 1.375) - 400]. *)
Theorem tdeeFrom_round_then_goal :
  (forall onb : OnboardingData,
      let bmr :=
        match gender onb with
        | male => 10 * weight onb + 6.25 * height onb - 5 * age onb + 5
        | female => 10 * weight onb + 6.25 * height onb - 5 * age onb - 161
        end in
      tdeeFrom onb =
        (Math.round (bmr * activityMultiplier (activity onb))
         + match goal onb with cut => - 400 | bulk => 300 | maintain => 0 end)%Z)
  /\ tdeeFrom defaults = (Math.round (1878.75 * 1.375) - 400)%Z.
Proof.
  split; [| reflexivity].
  intros onb bmr. unfold tdeeFrom, calcBMR.
  fold bmr.
  replace (match gender onb with
           | male => 10 * weight onb + 6.25 * height onb - 5 * age onb + 5
           | female => 10 * weight onb + 6.25 * height onb - 5 * age onb - 161
           end) with bmr by reflexivity.
  destruct (goal onb).
  - rewrite <- round_add_Z. apply Qfloor_comp. ring.
  - rewrite <- round_add_Z. apply Qfloor_comp. ring.
  - lia.
Qed.

(** ** Facts about [clamp] *)

Section Clamp.

Lemma clamp_bounds (n lo hi : Q) :
  lo <= hi -> lo <= clamp n lo hi /\ clamp n lo hi <= hi.
Proof.
  intros H. unfold clamp, Math.max, Math.min. split.
  - apply Q.le_max_l.
  - apply Q.max_lub; [assumption | apply Q.le_min_l].
Qed.

Lemma clamp_mono (n n' lo hi : Q) :
  n <= n' -> clamp n lo hi <= clamp n' lo hi.
Proof.
  intros H. unfold clamp, Math.max, Math.min.
  now apply Q.max_le_compat_l, Q.min_le_compat_l.
Qed.

Lemma clamp_comp (n n' lo hi : Q) :
  n == n' -> clamp n lo hi == clamp n' lo hi.
Proof.
  intros H. unfold clamp, Math.max, Math.min. now rewrite H.
Qed.

(** [clamp] keeps a value of the interval and replaces a value outside
    it by the nearer end. *)
Lemma clamp_cases (n lo hi : Q) :
  lo <= hi ->
  (n < lo /\ clamp n lo hi == lo)
  \/ (lo <= n <= hi /\ clamp n lo hi == n)
  \/ (hi < n /\ clamp n lo hi == hi).
Proof.
  intros H. unfold clamp, Math.max, Math.min.
  destruct (Qlt_le_dec n lo) as [L | L].
  - left. split; [assumption |].
    rewrite (Q.min_r hi n) by (apply Qlt_le_weak; eapply Qlt_le_trans; eassumption).
    apply Q.max_l. now apply Qlt_le_weak.
  - right. destruct (Qlt_le_dec hi n) as [U | U].
    + right. split; [assumption |].
      rewrite (Q.min_l hi n) by now apply Qlt_le_weak.
      now apply Q.max_r.
    + left. split; [now split |].
      rewrite (Q.min_r hi n) by assumption.
      now apply Q.max_r.
Qed.

Lemma max1_pos (t : Q) : 0 < Math.max 1 t.
Proof.
  unfold Math.max. eapply Qlt_le_trans; [| apply Q.le_max_l]. reflexivity.
Qed.

Lemma max1_zero (t : Q) : t == 0 -> Math.max 1 t == 1.
Proof.
  intros H. unfold Math.max. apply Q.max_l. rewrite H. discriminate.
Qed.

Lemma max1_ge1 (t : Q) : 1 <= t -> Math.max 1 t == t.
Proof. intros H. unfold Math.max. now apply Q.max_r. Qed.

(** A ratio against a positive divisor, scaled, grows with the
    numerator. *)
Lemma pct_mono (a b m : Q) : 0 < m -> a <= b -> a / m * 100 <= b / m * 100.
Proof.
  intros Hm H. apply Qmult_le_compat_r; [| discriminate].
  apply Qmult_le_compat_r; [assumption |].
  apply Qinv_le_0_compat. now apply Qlt_le_weak.
Qed.

End Clamp.

#[global] Instance clamp_Proper : Proper (Qeq ==> Qeq ==> Qeq ==> Qeq) clamp.
Proof.
  intros n n' Hn lo lo' Hlo hi hi' Hhi.
  unfold clamp, Math.max, Math.min. now rewrite Hn, Hlo, Hhi.
Qed.

#[global] Instance Math_max_Proper : Proper (Qeq ==> Qeq ==> Qeq) Math.max.
Proof. intros a a' Ha b b' Hb. unfold Math.max. now rewrite Ha, Hb. Qed.

Lemma whole_zero_or_ge1 (t : Q) : whole t -> zero_or_ge1 t.
Proof.
  intros (n & Hn & Ht). unfold zero_or_ge1. rewrite Ht.
  destruct (Z.eq_dec n 0%Z) as [-> | Hne].
  - now left.
  - right. change 1 with (inject_Z 1). rewrite <- Zle_Qle. lia.
Qed.


(** ** The halo score *)


Lemma mean5_bounds (a b c d e : Q) :
  0 <= a <= 100 -> 0 <= b <= 100 -> 0 <= c <= 100 ->
  0 <= d <= 100 -> 0 <= e <= 100 ->
  inject_Z 0 <= (a + b + c + d + e) / 5 /\ (a + b + c + d + e) / 5 <= inject_Z 100.
Proof.
  intros [] [] [] [] []. change (inject_Z 0) with 0. change (inject_Z 100) with 100.
  split.
  - apply Qle_shift_div_l; [reflexivity | lra].
  - apply Qle_shift_div_r; [reflexivity | lra].
Qed.




Lemma clamp_top (n lo hi : Q) : lo <= hi -> hi <= n -> clamp n lo hi == hi.
Proof.
  intros Hlh Hn. unfold clamp, Math.max, Math.min.
  rewrite (Q.min_l hi n) by assumption. now apply Q.max_r.
Qed.

Lemma pct_full (a m : Q) : 0 < m -> m <= a -> 100 <= a / m * 100.
Proof.
  intros Hm H. apply Qle_trans with (1 * 100); [discriminate |].
  apply Qmult_le_compat_r; [| discriminate].
  apply Qle_shift_div_l; [assumption |]. now rewrite Qmult_1_l.
Qed.

Lemma flag_mono (b b' : bool) (lo : Q) :
  lo <= 100 -> (b = true -> b' = true) ->
  (if b then 100 else lo) <= (if b' then 100 else lo).
Proof.
  intros Hlo Himp. destruct b, b'; try apply Qle_refl; try assumption.
  now specialize (Himp eq_refl).
Qed.

Lemma haloScore_perfect (p : DayData) : perfect p -> haloScore p = 100%Z.
Proof.
  intros (Hw & Hs & Hsl & Hp & Hwo). unfold haloScore, Math.round.
  rewrite Hp, Hwo. cbv zeta.
  transitivity (Qfloor ((100 + 100 + 100 + 100 + 100) / 5 + (1 # 2)));
    [| reflexivity].
  apply Qfloor_comp.
  rewrite (clamp_top (waterMl p / _ * 100)), (clamp_top (sleepPct p)),
    (clamp_top (steps p / _ * 100));
    try discriminate; try assumption; try reflexivity;
    apply pct_full; try assumption; apply max1_pos.
Qed.

Lemma haloScore_flags_off (m : DayData) :
  prayerDone m = false -> workoutDone m = false -> (haloScore m <= 74)%Z.
Proof.
  intros Hp Hw. unfold haloScore. rewrite Hp, Hw. cbv zeta.
  apply round_bounds with (lo := 0%Z).
  - apply mean5_bounds; try (apply clamp_bounds; discriminate);
      split; discriminate.
  - pose proof (clamp_bounds (waterMl m / Math.max 1 (waterTarget m) * 100) 0 100) as [_ A];
      [discriminate |].
    pose proof (clamp_bounds (sleepPct m) 0 100) as [_ B]; [discriminate |].
    pose proof (clamp_bounds (steps m / Math.max 1 (stepsGoal m) * 100) 0 100) as [_ C];
      [discriminate |].
    change (inject_Z 74) with 74.
    apply Qle_shift_div_r; [reflexivity | lra].
Qed.

(** C7.  The halo score never drops when water, steps or sleep rise or a
    flag is set while the targets stay the same (one input or several at
    once), and a day with all five inputs at their best scores strictly
    more than a day with all five short of it. *)
Theorem haloScore_monotone :
  (forall d d' : DayData, improves d d' -> (haloScore d <= haloScore d')%Z)
  /\ (forall p m : DayData,
         perfect p -> mediocre m -> (haloScore m < haloScore p)%Z).
Proof.
  split.
  - intros d d' (Hwt & Hsg & Hw & Hs & Hsl & Hp & Hwo).
    unfold haloScore. apply round_mono.
    apply Qmult_le_compat_r; [| discriminate].
    repeat apply Qplus_le_compat.
    + apply clamp_mono. rewrite Hwt. apply pct_mono; [apply max1_pos | assumption].
    + now apply clamp_mono.
    + apply clamp_mono. rewrite Hsg. apply pct_mono; [apply max1_pos | assumption].
    + apply flag_mono; [discriminate | assumption].
    + apply flag_mono; [discriminate | assumption].
  - intros p m Hp (_ & _ & _ & Hpr & Hwo).
    rewrite (haloScore_perfect p Hp).
    pose proof (haloScore_flags_off m Hpr Hwo). lia.
Qed.

Lemma haloScore_monotone_base :
  improves base base_improved /\ perfect base_perfect /\ mediocre base
  /\ (haloScore base <= haloScore base_improved)%Z
  /\ (haloScore base < haloScore base_perfect)%Z.
Proof.
  assert (Hi : improves base base_improved)
    by (repeat split; try reflexivity; try discriminate).
  assert (Hp : perfect base_perfect)
    by (repeat split; try reflexivity; try discriminate).
  assert (Hm : mediocre base) by (repeat split; reflexivity).
  split; [exact Hi |]. split; [exact Hp |]. split; [exact Hm |]. split.
  - exact (proj1 haloScore_monotone base base_improved Hi).
  - exact (proj2 haloScore_monotone base_perfect base Hp Hm).
Defined.

(** ** The nudge *)

#[global] Instance ltb_Proper : Proper (Qeq ==> Qeq ==> eq) ltb.
Proof.
  intros a a' Ha b b' Hb. apply eq_true_iff_eq.
  rewrite !ltb_lt. now rewrite Ha, Hb.
Qed.

#[global] Instance gtb_Proper : Proper (Qeq ==> Qeq ==> eq) gtb.
Proof. intros a a' Ha b b' Hb. unfold gtb. now rewrite Ha, Hb. Qed.

#[global] Instance geb_Proper : Proper (Qeq ==> Qeq ==> eq) geb.
Proof.
  intros a a' Ha b b' Hb. apply eq_true_iff_eq.
  rewrite !geb_ge. now rewrite Ha, Hb.
Qed.

Lemma nudges_distinct :
  NoDup [Nudge.water; Nudge.walk; Nudge.snack; Nudge.prayer; Nudge.stretch;
         Nudge.keep_going].
Proof. apply (bool_decide_unpack _). vm_compute. exact I. Qed.

Lemma pickNudge_unfold (d : DayData) :
  pickNudge d =
    if ltb (waterMl d / Math.max 1 (waterTarget d)) 0.5 then Nudge.water
    else NudgeTable.later_rules d.
Proof. reflexivity. Qed.

Lemma later_rules_not_water (d : DayData) :
  NudgeTable.later_rules d <> Nudge.water.
Proof.
  pose proof nudges_distinct as ND.
  apply NoDup_cons in ND as [Hnotin _].
  intros E. apply Hnotin. rewrite <- E. unfold NudgeTable.later_rules.
  repeat match goal with |- context [if ?b then _ else _] => destruct b end;
    set_solver.
Qed.

Lemma pickNudge_water_iff (d : DayData) :
  pickNudge d = Nudge.water
  <-> waterMl d / Math.max 1 (waterTarget d) < 0.5.
Proof.
  rewrite pickNudge_unfold, <- ltb_lt.
  destruct (ltb _ 0.5); split; try easy.
  intros E. now apply later_rules_not_water in E.
Qed.

Lemma ratio_below_half (w t : Q) :
  0 < t -> w / t < 0.5 -> w / Math.max 1 t < 0.5.
Proof.
  intros Ht H. destruct (Qlt_le_dec t 1) as [Hlt | Hge].
  - assert (Hm : Math.max 1 t == 1)
      by (apply Q.max_l; now apply Qlt_le_weak).
    rewrite Hm. unfold Qdiv. change (/ 1) with 1. rewrite Qmult_1_r.
    assert (Hw : w < 0.5 * t).
    { pose proof (Qmult_lt_compat_r (w / t) 0.5 t Ht H) as Hx.
      assert (Hne : ~ t == 0) by (intros E; rewrite E in Ht; discriminate).
      assert (Hc : w / t * t == w) by (field; exact Hne).
      now rewrite Hc in Hx. }
    lra.
  - now rewrite (max1_ge1 _ Hge).
Qed.

Lemma same_day_pickNudge (d d' : DayData) :
  same_day d d' -> pickNudge d = pickNudge d'.
Proof.
  intros (_ & _ & Hsit & Hst & Hsg & Hw & Hwt & Hkc & Hkt & _ & _ & Hp & _).
  unfold pickNudge. now rewrite Hsit, Hst, Hsg, Hw, Hwt, Hkc, Hkt, Hp.
Qed.

(** C3.  [pickNudge] is a function of the day's values (the same values
    give the same nudge); on a day with a water target of at least one it
    is the first-match table hydration, movement, protein snack, prayer,
    posture, encouragement; and on every day with a positive target whose
    water ratio is below one half it answers the hydration nudge, whatever
    the other fields hold. *)
Theorem pickNudge_first_match :
  (forall d d' : DayData, same_day d d' -> pickNudge d = pickNudge d')
  /\ (forall d : DayData,
         1 <= waterTarget d -> pickNudge d = NudgeTable.selectNudge d)
  /\ (forall d : DayData,
         0 < waterTarget d -> waterMl d / waterTarget d < 0.5 ->
         pickNudge d = Nudge.water).
Proof.
  split; [exact same_day_pickNudge | split].
  - intros d Hge. rewrite pickNudge_unfold. unfold NudgeTable.selectNudge.
    now rewrite (max1_ge1 _ Hge).
  - intros d Ht H. apply pickNudge_water_iff. now apply ratio_below_half.
Qed.

Lemma pickNudge_first_match_low_water :
  (same_day base_low_water base_low_water
   /\ pickNudge base_low_water = pickNudge base_low_water)
  /\ (1 <= waterTarget perfect_but_water
      /\ pickNudge perfect_but_water = NudgeTable.selectNudge perfect_but_water)
  /\ (0 < waterTarget perfect_but_water
      /\ waterMl perfect_but_water / waterTarget perfect_but_water < 0.5
      /\ pickNudge perfect_but_water = Nudge.water).
Proof.
  destruct pickNudge_first_match as (Hdet & Htable & Hwater).
  assert (Hs : same_day base_low_water base_low_water)
    by (repeat split; reflexivity).
  assert (H1 : 1 <= waterTarget perfect_but_water) by discriminate.
  assert (H0 : 0 < waterTarget perfect_but_water) by reflexivity.
  assert (Hr : waterMl perfect_but_water / waterTarget perfect_but_water < 0.5)
    by reflexivity.
  split; [split; [exact Hs | exact (Hdet _ _ Hs)] |].
  split; [split; [exact H1 | exact (Htable _ H1)] |].
  split; [exact H0 |]. split; [exact Hr | exact (Hwater _ H0 Hr)].
Defined.

(** C10.  [pickNudge] divides by [Math.max(1, waterTarget)], which is
    positive on every day, and answers the hydration nudge exactly when
    that ratio is below one half; on a day whose water target is zero this
    is exactly when the water drunk is below one half (for a whole amount:
    when it is zero), and otherwise rules 2 to 6 decide as on any day. *)
Theorem pickNudge_zero_target :
  (forall d : DayData, 0 < Math.max 1 (waterTarget d))
  /\ (forall d : DayData,
         pickNudge d = Nudge.water
         <-> waterMl d / Math.max 1 (waterTarget d) < 0.5)
  /\ (forall d : DayData,
         waterTarget d == 0 ->
         (pickNudge d = Nudge.water <-> waterMl d < 0.5)
         /\ (forall n : Z, (0 <= n)%Z -> waterMl d == inject_Z n ->
             (pickNudge d = Nudge.water <-> n = 0%Z))
         /\ (~ waterMl d < 0.5 -> pickNudge d = NudgeTable.later_rules d)).
Proof.
  split; [intros d; apply max1_pos | split; [exact pickNudge_water_iff |]].
  intros d Hz.
  assert (Hiff : pickNudge d = Nudge.water <-> waterMl d < 0.5).
  { rewrite pickNudge_water_iff, (max1_zero _ Hz).
    unfold Qdiv. change (/ 1) with 1. now rewrite Qmult_1_r. }
  split; [exact Hiff | split].
  - intros n Hn Hw. rewrite Hiff, Hw. split.
    + intros H. destruct (Z.eq_dec n 0%Z) as [E | E]; [exact E | exfalso].
      assert (1 <= inject_Z n)
        by (change 1 with (inject_Z 1); rewrite <- Zle_Qle; lia).
      lra.
    + intros ->. reflexivity.
  - intros Hnot. rewrite pickNudge_unfold.
    destruct (ltb _ 0.5) eqn:E; [| reflexivity].
    exfalso. apply Hnot, Hiff, pickNudge_water_iff. now apply ltb_lt.
Qed.

Lemma pickNudge_zero_target_days :
  (waterTarget (no_target 0) == 0 /\ waterMl (no_target 0) < 0.5
   /\ pickNudge (no_target 0) = Nudge.water)
  /\ (waterTarget (no_target 250) == 0 /\ ~ waterMl (no_target 250) < 0.5
      /\ pickNudge (no_target 250) = NudgeTable.later_rules (no_target 250)).
Proof.
  destruct pickNudge_zero_target as (_ & _ & Hzero).
  assert (H0 : waterTarget (no_target 0) == 0) by reflexivity.
  assert (H250 : waterTarget (no_target 250) == 0) by reflexivity.
  assert (Hlow : waterMl (no_target 0) < 0.5) by reflexivity.
  assert (Hhigh : ~ waterMl (no_target 250) < 0.5) by (intros H; discriminate H).
  split.
  - split; [exact H0 |]. split; [exact Hlow |].
    exact (proj2 (proj1 (Hzero _ H0)) Hlow).
  - split; [exact H250 |]. split; [exact Hhigh |].
    exact (proj2 (proj2 (Hzero _ H250)) Hhigh).
Defined.

(** ** Completing a day *)

Lemma ok_iff (d : DayData) :
  ok d = true
  <-> 0.9 * waterTarget d <= waterMl d /\ 0.9 * stepsGoal d <= steps d.
Proof.
  unfold ok. rewrite andb_true_iff, !geb_ge.
  now rewrite (Qmult_comm (waterTarget d)), (Qmult_comm (stepsGoal d)).
Qed.

(** C4.  The completion test of a day is true exactly when the water
    drunk is at least nine tenths of the water target and the steps are at
    least nine tenths of the step goal; two days with the same four numbers
    get the same verdict, whatever their calories and other fields. *)
Theorem ok_water_and_steps_only :
  (forall d : DayData,
      ok d = true
      <-> 0.9 * waterTarget d <= waterMl d /\ 0.9 * stepsGoal d <= steps d)
  /\ (forall d d' : DayData,
         waterMl d == waterMl d' -> waterTarget d == waterTarget d' ->
         steps d == steps d' -> stepsGoal d == stepsGoal d' ->
         ok d = ok d').
Proof.
  split; [exact ok_iff |].
  intros d d' Hw Hwt Hs Hsg. unfold ok. now rewrite Hw, Hwt, Hs, Hsg.
Qed.

Lemma ok_water_and_steps_only_nine_tenths :
  (0.9 * waterTarget nine_tenths <= waterMl nine_tenths
   /\ 0.9 * stepsGoal nine_tenths <= steps nine_tenths
   /\ ok nine_tenths = true)
  /\ ok nine_tenths = ok nine_tenths_other.
Proof.
  destruct ok_water_and_steps_only as (Hiff & Hframe).
  assert (Hw : 0.9 * waterTarget nine_tenths <= waterMl nine_tenths)
    by discriminate.
  assert (Hs : 0.9 * stepsGoal nine_tenths <= steps nine_tenths)
    by discriminate.
  split.
  - split; [exact Hw |]. split; [exact Hs |].
    exact (proj2 (Hiff nine_tenths) (conj Hw Hs)).
  - apply Hframe; reflexivity.
Defined.

Lemma truthy_record (v : string) : v <> "" -> truthy (Some v) = true.
Proof.
  intros Hne. cbn. apply negb_true_iff, String.eqb_neq. exact Hne.
Qed.

(** C5.  On a session that holds a day, [completeDay] leaves the streak
    and the storage as they are when the day is not complete; when it is
    complete and the storage holds a record for the day before, the streak
    grows by exactly one, and when it holds none the streak becomes 1
    whatever it was; in both cases the new value is written to the streak
    key. *)
Theorem completeDay_streak (yesterday : string) (a : App) (day : DayData) :
  st_day a = Some day ->
  let a' := completeDay yesterday a in
  let prev := storage a !! K.day yesterday in
  (ok day = false ->
   st_streak a' = st_streak a /\ storage a' = storage a)
  /\ (ok day = true ->
      forall record : string, prev = Some record -> record <> "" ->
      st_streak a' = (st_streak a + 1)%Z
      /\ storage a' = <[K.streak := pretty (st_streak a + 1)%Z]> (storage a))
  /\ (ok day = true -> prev = None ->
      st_streak a' = 1%Z
      /\ storage a' = <[K.streak := "1"]> (storage a)).
Proof.
  intros Hday. cbv zeta. unfold completeDay, KVStorage.getItem, KVStorage.setItem.
  rewrite Hday. split; [| split].
  - intros ->. split; reflexivity.
  - intros -> record -> Hne. rewrite (truthy_record _ Hne). split; reflexivity.
  - intros -> ->. split; reflexivity.
Qed.

Lemma completeDay_streak_sessions :
  (ok base = false
   /\ st_streak (completeDay "2024-12-31" (session base 4 with_yesterday)) = 4%Z
   /\ storage (completeDay "2024-12-31" (session base 4 with_yesterday))
      = with_yesterday)
  /\ (ok nine_tenths = true
      /\ with_yesterday !! K.day "2024-12-31" = Some "{}"
      /\ st_streak (completeDay "2024-12-31" (session nine_tenths 4 with_yesterday))
         = 5%Z)
  /\ (ok nine_tenths = true
      /\ (∅ : gmap string string) !! K.day "2024-12-31" = None
      /\ st_streak (completeDay "2024-12-31" (session nine_tenths 4 ∅)) = 1%Z).
Proof.
  assert (Hno : ok base = false) by reflexivity.
  assert (Hyes : ok nine_tenths = true) by reflexivity.
  assert (Hrec : with_yesterday !! K.day "2024-12-31" = Some "{}")
    by (vm_compute; reflexivity).
  assert (Hnone : (∅ : gmap string string) !! K.day "2024-12-31" = None)
    by apply lookup_empty.
  split; [| split].
  - split; [exact Hno |].
    exact (proj1 (completeDay_streak "2024-12-31"
                    (session base 4 with_yesterday) base eq_refl) Hno).
  - split; [exact Hyes |]. split; [exact Hrec |].
    refine (proj1 (proj1 (proj2 (completeDay_streak "2024-12-31"
                    (session nine_tenths 4 with_yesterday) nine_tenths eq_refl))
                    Hyes "{}" Hrec _)).
    discriminate.
  - split; [exact Hyes |]. split; [exact Hnone |].
    exact (proj1 (proj2 (proj2 (completeDay_streak "2024-12-31"
                    (session nine_tenths 4 ∅) nine_tenths eq_refl))
                    Hyes Hnone)).
Defined.

(** ** The meal plan *)

Lemma round_near (x : Q) :
  x - (1 # 2) <= inject_Z (Math.round x) /\ inject_Z (Math.round x) <= x + (1 # 2).
Proof.
  unfold Math.round.
  pose proof (Qfloor_le (x + (1 # 2))) as Hle.
  pose proof (Qlt_floor (x + (1 # 2))) as Hlt.
  rewrite inject_Z_plus in Hlt. change (inject_Z 1) with 1 in Hlt.
  split; lra.
Qed.

Lemma buildMeal_kcal (toString36 : Q -> string) (title : string)
    (k p c f : Q) (s : Draws) :
  kcal (buildMeal toString36 title k p c f s).1 = k.
Proof. reflexivity. Qed.

Lemma generateMealsForDay_shape (toString36 : Q -> string) (dayKcal : Q)
    (goal : Goal) (s : Draws) :
  let mealK := Math.round (inject_Z (Math.round (dayKcal * 0.75)) / 3) in
  let snackK :=
    Math.round ((dayKcal - inject_Z (Math.round (dayKcal * 0.75))) / 2) in
  exists m1 m2 m3 s1 s2 : Meal,
    (generateMealsForDay toString36 dayKcal goal s).1 = ([m1; m2; m3], [s1; s2])
    /\ kcal m1 = inject_Z mealK /\ kcal m2 = inject_Z mealK
    /\ kcal m3 = inject_Z mealK
    /\ kcal s1 = inject_Z snackK /\ kcal s2 = inject_Z snackK.
Proof.
  cbv zeta. unfold generateMealsForDay, mbind, Rand_bind, mret, Rand_ret.
  cbv beta. do 5 eexists. split; [reflexivity |].
  repeat split; apply buildMeal_kcal.
Qed.

(** C6.  For every target (so for every positive whole one) and every
    goal, whatever the draws, the generator answers exactly three main
    meals of [round (round (dayKcal * 0.75) / 3)] kcal each and exactly two
    snacks of [round ((dayKcal - round (dayKcal * 0.75)) / 2)] kcal each,
    and the five energies add up to within 60 kcal of the target. *)
Theorem generateMealsForDay_three_plus_two
    (toString36 : Q -> string) (dayKcal : Q) (goal : Goal) (s : Draws) :
  let plan := (generateMealsForDay toString36 dayKcal goal s).1 in
  let mainKcal := Math.round (dayKcal * 0.75) in
  length plan.1 = 3%nat /\ length plan.2 = 2%nat
  /\ Forall (fun m => kcal m = inject_Z (Math.round (inject_Z mainKcal / 3)))
       plan.1
  /\ Forall
       (fun m =>
          kcal m = inject_Z (Math.round ((dayKcal - inject_Z mainKcal) / 2)))
       plan.2
  /\ - (60) <= total_kcal (plan.1 ++ plan.2) - dayKcal
  /\ total_kcal (plan.1 ++ plan.2) - dayKcal <= 60.
Proof.
  cbv zeta.
  destruct (generateMealsForDay_shape toString36 dayKcal goal s)
    as (m1 & m2 & m3 & s1 & s2 & -> & K1 & K2 & K3 & K4 & K5).
  cbn [fst snd length app]. split; [reflexivity |]. split; [reflexivity |].
  split; [repeat constructor; assumption |].
  split; [repeat constructor; assumption |].
  unfold total_kcal. cbn [foldl]. rewrite K1, K2, K3, K4, K5.
  set (M := inject_Z (Math.round (dayKcal * 0.75))).
  pose proof (round_near (M / 3)) as [A1 A2].
  pose proof (round_near ((dayKcal - M) / 2)) as [B1 B2].
  assert (E3 : 3 * (M / 3) == M) by (field; discriminate).
  assert (E2 : 2 * ((dayKcal - M) / 2) == dayKcal - M) by (field; discriminate).
  set (x := M / 3) in *. set (y := (dayKcal - M) / 2) in *.
  split; lra.
Qed.

(** ** Regenerating the plan *)

(** C8.  Regenerating the plan of an existing day gives a day with three
    meals and two snacks, the freshly generated ones, and with every other
    field as it was. *)
Theorem onRegenerate_replaces_meals_only
    (toString36 : Q -> string) (onb : OnboardingData) (d : DayData)
    (s : Draws) :
  exists d' : DayData,
    (onRegenerate toString36 onb (Some d) s).1 = Some d'
    /\ (meals d', snacks d')
       = (generateMealsForDay toString36 (inject_Z (tdeeFrom onb)) (goal onb) s).1
    /\ length (meals d') = 3%nat /\ length (snacks d') = 2%nat
    /\ date d' = date d /\ sleepPct d' = sleepPct d
    /\ sittingHrs d' = sittingHrs d /\ steps d' = steps d
    /\ stepsGoal d' = stepsGoal d /\ waterMl d' = waterMl d
    /\ waterTarget d' = waterTarget d /\ kcalConsumed d' = kcalConsumed d
    /\ kcalTarget d' = kcalTarget d /\ prayerDone d' = prayerDone d
    /\ workoutDone d' = workoutDone d.
Proof.
  unfold onRegenerate, mbind, Rand_bind, mret, Rand_ret. cbv beta.
  eexists. split; [reflexivity |].
  destruct (generateMealsForDay_shape toString36 (inject_Z (tdeeFrom onb))
              (goal onb) s) as (m1 & m2 & m3 & s1 & s2 & E & _).
  unfold spread_meals. cbn [meals snacks date sleepPct sittingHrs steps
    stepsGoal waterMl waterTarget kcalConsumed kcalTarget prayerDone
    workoutDone].
  rewrite E. repeat split.
Qed.

(** ** Durations *)

(** C9.  For a positive whole number of minutes below 60 the formatter
    prints the minutes and the minute label; from 60 on it prints the
    whole hours, the hour label, the remaining minutes and the minute
    label (the labels are the Arabic abbreviations of the source).  So 45
    minutes print in the one-part form and 125 minutes start with the
    two-hour part. *)
Theorem formatTime_forms :
  (forall m : Z,
      (0 < m)%Z ->
      ((m < 60)%Z -> formatTime m = pretty m +:+ " د")
      /\ ((60 <= m)%Z ->
          formatTime m
          = pretty (m / 60)%Z +:+ " س " +:+ pretty (m mod 60)%Z
              +:+ " د"))
  /\ formatTime 45 = "45 د"
  /\ String.index 0 "2 س" (formatTime 125) = Some 0%nat.
Proof.
  split; [| split; reflexivity].
  intros m Hpos. unfold formatTime. split; intros H.
  - apply Z.ltb_lt in H. now rewrite H.
  - assert (E : (m <? 60)%Z = false) by (apply Z.ltb_ge; exact H).
    rewrite E. cbv zeta. rewrite Z.rem_mod_nonneg by lia. reflexivity.
Qed.

Lemma formatTime_forms_45_125 :
  ((0 < 45)%Z /\ (45 < 60)%Z /\ formatTime 45 = pretty 45%Z +:+ " د")
  /\ ((0 < 125)%Z /\ (60 <= 125)%Z
      /\ formatTime 125
         = pretty (125 / 60)%Z +:+ " س " +:+ pretty (125 mod 60)%Z
             +:+ " د").
Proof.
  destruct formatTime_forms as (Hform & _).
  assert (P45 : (0 < 45)%Z) by lia. assert (L45 : (45 < 60)%Z) by lia.
  assert (P125 : (0 < 125)%Z) by lia. assert (G125 : (60 <= 125)%Z) by lia.
  split.
  - split; [exact P45 |]. split; [exact L45 |].
    exact (proj1 (Hform 45%Z P45) L45).
  - split; [exact P125 |]. split; [exact G125 |].
    exact (proj2 (Hform 125%Z P125) G125).
Defined.

(** ** The draws stay in range *)

Lemma draw_index (r : Draw) (n : nat) :
  (0 < n)%nat -> (Z.to_nat (Math.floor (r * inject_Z (Z.of_nat n))) < n)%nat.
Proof.
  intros Hn. destruct r as [v Hv]. cbn [draw_val].
  apply andb_true_iff in Hv as [H0 H1].
  apply Qle_bool_iff in H0. apply ltb_lt in H1.
  assert (Hpos : 0 < inject_Z (Z.of_nat n))
    by (change 0 with (inject_Z 0); rewrite <- Zlt_Qlt; lia).
  unfold Math.floor.
  assert (Hlo : (0 <= Qfloor (v * inject_Z (Z.of_nat n)))%Z).
  { change 0%Z with (Qfloor 0). apply Qfloor_resp_le.
    apply Qmult_le_0_compat; [assumption | now apply Qlt_le_weak]. }
  assert (Hhi : (Qfloor (v * inject_Z (Z.of_nat n)) < Z.of_nat n)%Z).
  { rewrite Zlt_Qlt. eapply Qle_lt_trans; [apply Qfloor_le |].
    rewrite <- (Qmult_1_l (inject_Z (Z.of_nat n))) at 2.
    now apply Qmult_lt_compat_r. }
  lia.
Qed.

(** [pick] answers [n] elements, or the whole array when it is shorter. *)
Lemma pick_length {T : Type} (n : nat) (copy : list T) (s : Draws) :
  length (pick copy n s).1 = Nat.min n (length copy).
Proof.
  revert copy s. induction n as [| n IH]; intros copy s; [reflexivity |].
  destruct copy as [| x l]; [reflexivity |].
  cbn [pick]. unfold mbind, Rand_bind, mret, Rand_ret, random. cbn [fst snd].
  set (i := Z.to_nat _).
  assert (Hi : (i < length (x :: l))%nat) by (apply draw_index; cbn; lia).
  destruct (lookup_lt_is_Some_2 (x :: l) i Hi) as [y Hy].
  rewrite Hy. cbn [fst length]. rewrite IH.
  rewrite length_delete by (eexists; exact Hy). cbn [length]. lia.
Qed.

(** A generated meal lists five ingredients: one protein, one carbohydrate,
    one fat and two vegetables. *)
Lemma buildMeal_ingredients (toString36 : Q -> string) (title : string)
    (k p c f : Q) (s : Draws) :
  length (ingredients (buildMeal toString36 title k p c f s).1) = 5%nat.
Proof.
  unfold buildMeal, mbind, Rand_bind, mret, Rand_ret, fmap, Rand_fmap.
  cbn [fst snd ingredients]. rewrite length_app, pick_length. reflexivity.
Qed.

(** ** Day records as the application makes them *)

(** A fresh day has whole targets, so the statements about days whose
    targets are zero or at least one apply to it; the buttons of the home
    screen change water, steps, calories eaten and the flags only, and
    regeneration keeps the targets. *)
Lemma initDay_targets_whole (toString36 : Q -> string) (today : string)
    (onb : OnboardingData) (s : Draws) :
  0 <= weight onb ->
  whole (waterTarget (initDay toString36 today onb s).1)
  /\ whole (stepsGoal (initDay toString36 today onb s).1).
Proof.
  intros Hw. unfold initDay, mbind, Rand_bind, mret, Rand_ret.
  cbn [fst waterTarget stepsGoal]. split.
  - exists (waterTargetMl onb). split; [| reflexivity].
    unfold waterTargetMl, Math.round. cbv zeta.
    apply (Z.le_trans _ (Qfloor 0)); [exact (Z.le_refl 0) |].
    apply Qfloor_resp_le.
    assert (H35 : 0 <= weight onb * 35)
      by (apply Qmult_le_0_compat; [assumption | discriminate]).
    set (base := weight onb * 35) in *.
    destruct (activity onb); lra.
  - destruct (activity onb); [exists 6000%Z | exists 9000%Z ..];
      (split; [lia | reflexivity]).
Qed.

Lemma completeDay_no_day (yesterday : string) (a : App) :
  st_day a = None -> completeDay yesterday a = a.
Proof. intros H. unfold completeDay. now rewrite H. Qed.

(** An empty string under the key of the day before counts as no record:
    the condition of the source tests the string itself. *)
Lemma completeDay_empty_record (yesterday : string) (a : App) (day : DayData) :
  st_day a = Some day -> ok day = true ->
  storage a !! K.day yesterday = Some "" ->
  st_streak (completeDay yesterday a) = 1%Z.
Proof.
  intros Hday Hok Hrec. unfold completeDay, KVStorage.getItem.
  now rewrite Hday, Hok, Hrec.
Qed.

(** ** The runtime assertions of the source *)

Example BMR_male : calcBMR male 90 175 24 == 1878.75.
Proof. reflexivity. Qed.

Example BMR_female : calcBMR female 60 165 30 == 1320.25.
Proof. reflexivity. Qed.

Example clamp_5_0_10 :
  clamp 5 0 10 == 5 /\ clamp (-1) 0 10 == 0 /\ clamp 11 0 10 == 10.
Proof. repeat split. Qed.

Example activity_multiplier_light : activityMultiplier light == 1.375.
Proof. reflexivity. Qed.

Example tdeeFrom_defaults : tdeeFrom defaults = 2183%Z.
Proof. reflexivity. Qed.

Example waterTargetMl_defaults : waterTargetMl defaults = 3350%Z.
Proof. reflexivity. Qed.

Example total_kcal_2400 (toString36 : Q -> string) (s : Draws) :
  let plan := (generateMealsForDay toString36 2400 maintain s).1 in
  length plan.1 = 3%nat /\ length plan.2 = 2%nat
  /\ total_kcal (plan.1 ++ plan.2) == 2400.
Proof. repeat split. Qed.

Example haloScore_base_improved : (haloScore base < haloScore base_improved)%Z.
Proof. reflexivity. Qed.

Example pickNudge_base_low_water : pickNudge base_low_water = Nudge.water.
Proof. reflexivity. Qed.

(** * Further properties of the code *)

(** ** [clamp] *)

(** X1.  With ordered bounds [clamp] answers a value of the interval,
    leaves a value of the interval as it is and is idempotent; with the
    bounds the wrong way round it answers the lower one, whatever the
    value. *)
Theorem clamp_interval (n lo hi : Q) :
  (lo <= hi ->
   (lo <= clamp n lo hi /\ clamp n lo hi <= hi)
   /\ (lo <= n -> n <= hi -> clamp n lo hi == n)
   /\ clamp (clamp n lo hi) lo hi == clamp n lo hi)
  /\ (hi < lo -> clamp n lo hi == lo).
Proof.
  split.
  - intros H. pose proof (clamp_bounds n lo hi H) as [B1 B2].
    split; [now split |].
    assert (Hid : forall x, lo <= x -> x <= hi -> clamp x lo hi == x).
    { intros x L U. unfold clamp, Math.max, Math.min.
      rewrite (Q.min_r hi x) by assumption. now apply Q.max_r. }
    split; [apply Hid | now apply Hid].
  - intros H. unfold clamp, Math.max, Math.min. apply Q.max_l.
    apply Qle_trans with hi; [apply Q.le_min_l | now apply Qlt_le_weak].
Qed.

Lemma clamp_interval_examples :
  (0 <= 100 /\ 0 <= clamp 250 0 100 /\ clamp 250 0 100 <= 100
   /\ clamp 42 0 100 == 42)
  /\ (0 < 10 /\ clamp 5 10 0 == 10).
Proof.
  assert (H : 0 <= 100) by discriminate.
  assert (H' : 0 < 10) by reflexivity.
  split.
  - split; [exact H |].
    destruct (proj1 (clamp_interval 250 0 100) H) as ((B1 & B2) & _ & _).
    destruct (proj1 (clamp_interval 42 0 100) H) as (_ & Hid & _).
    split; [exact B1 |]. split; [exact B2 |].
    apply Hid; discriminate.
  - split; [exact H' |]. exact (proj2 (clamp_interval 5 10 0) H').
Defined.

(** ** The energy and water targets *)

Lemma activityMultiplier_pos (l : ActivityLevel) : 0 < activityMultiplier l.
Proof. destruct l; reflexivity. Qed.

Lemma activityMultiplier_tier (l l' : ActivityLevel) :
  (tier l <= tier l')%Z -> activityMultiplier l <= activityMultiplier l'.
Proof. destruct l, l'; cbn; intros H; try discriminate; lia. Qed.

Lemma tdeeFrom_maintain (onb : OnboardingData) :
  tdeeFrom onb =
    (tdeeFrom (with_goal maintain onb)
     + match goal onb with cut => - 400 | bulk => 300 | maintain => 0 end)%Z.
Proof.
  unfold tdeeFrom. cbn [goal gender weight height age activity with_goal].
  destruct (goal onb).
  - rewrite <- round_add_Z. apply Qfloor_comp. ring.
  - rewrite <- round_add_Z. apply Qfloor_comp. ring.
  - lia.
Qed.

(** X2.  With the rest of the profile fixed, the cut target is exactly
    400 kcal below the maintain target and the bulk target exactly 300
    above it, so cut is less than maintain is less than bulk. *)
Theorem tdeeFrom_goal_order (onb : OnboardingData) :
  tdeeFrom (with_goal cut onb) = (tdeeFrom (with_goal maintain onb) - 400)%Z
  /\ tdeeFrom (with_goal bulk onb) = (tdeeFrom (with_goal maintain onb) + 300)%Z
  /\ (tdeeFrom (with_goal cut onb) < tdeeFrom (with_goal maintain onb)
      < tdeeFrom (with_goal bulk onb))%Z.
Proof.
  pose proof (tdeeFrom_maintain (with_goal cut onb)) as Hc.
  pose proof (tdeeFrom_maintain (with_goal bulk onb)) as Hb.
  cbn [goal with_goal] in Hc, Hb.
  change (with_goal maintain (with_goal cut onb)) with (with_goal maintain onb) in Hc.
  change (with_goal maintain (with_goal bulk onb)) with (with_goal maintain onb) in Hb.
  lia.
Qed.

(** X3.  Between two profiles of the same gender, goal and activity, the
    energy target does not drop when weight and height do not drop and
    age does not rise. *)
Theorem tdeeFrom_monotone_body (onb onb' : OnboardingData) :
  gender onb = gender onb' -> goal onb = goal onb' ->
  activity onb = activity onb' ->
  weight onb <= weight onb' -> height onb <= height onb' ->
  age onb' <= age onb ->
  (tdeeFrom onb <= tdeeFrom onb')%Z.
Proof.
  intros Hg Hgo Hact Hw Hh Ha. unfold tdeeFrom.
  rewrite <- Hg, <- Hgo, <- Hact.
  pose proof (activityMultiplier_pos (activity onb)) as Hm.
  set (m := activityMultiplier (activity onb)) in *.
  assert (Hbmr : calcBMR (gender onb) (weight onb) (height onb) (age onb) * m
                 <= calcBMR (gender onb) (weight onb') (height onb') (age onb') * m).
  { apply Qmult_le_compat_r; [| now apply Qlt_le_weak].
    unfold calcBMR. destruct (gender onb); lra. }
  cbv zeta.
  set (t := calcBMR _ (weight onb) _ _ * m) in *.
  set (t' := calcBMR _ (weight onb') _ _ * m) in *.
  destruct (goal onb); apply round_mono; lra.
Qed.

Lemma tdeeFrom_monotone_body_heavier :
  weight defaults <= weight (with_weight 95 defaults)
  /\ (tdeeFrom defaults <= tdeeFrom (with_weight 95 defaults))%Z.
Proof.
  assert (Hw : weight defaults <= weight (with_weight 95 defaults))
    by discriminate.
  split; [exact Hw |].
  apply (tdeeFrom_monotone_body defaults (with_weight 95 defaults));
    try reflexivity; try exact Hw; apply Qle_refl.
Defined.

(** X4.  For a profile whose basal rate is not negative, a higher
    activity level never gives a lower energy target. *)
Theorem tdeeFrom_monotone_activity (onb : OnboardingData)
    (l l' : ActivityLevel) :
  0 <= calcBMR (gender onb) (weight onb) (height onb) (age onb) ->
  (tier l <= tier l')%Z ->
  (tdeeFrom (with_activity l onb) <= tdeeFrom (with_activity l' onb))%Z.
Proof.
  intros Hb Ht. unfold tdeeFrom.
  cbn [gender weight height age activity goal with_activity]. cbv zeta.
  set (b := calcBMR _ _ _ _) in *.
  assert (Hm : b * activityMultiplier l <= b * activityMultiplier l').
  { rewrite !(Qmult_comm b). apply Qmult_le_compat_r; [| assumption].
    now apply activityMultiplier_tier. }
  set (t := b * activityMultiplier l) in *.
  set (t' := b * activityMultiplier l') in *.
  destruct (goal onb); apply round_mono; lra.
Qed.

Lemma tdeeFrom_monotone_activity_defaults :
  0 <= calcBMR (gender defaults) (weight defaults) (height defaults)
         (age defaults)
  /\ (tier light <= tier athlete)%Z
  /\ (tdeeFrom (with_activity light defaults)
      <= tdeeFrom (with_activity athlete defaults))%Z.
Proof.
  assert (Hb : 0 <= calcBMR (gender defaults) (weight defaults)
                      (height defaults) (age defaults)) by discriminate.
  assert (Ht : (tier light <= tier athlete)%Z) by (cbn; lia).
  split; [exact Hb |]. split; [exact Ht |].
  exact (tdeeFrom_monotone_activity defaults light athlete Hb Ht).
Defined.

Lemma waterTargetMl_split (onb : OnboardingData) :
  waterTargetMl onb
  = (Math.round (weight onb * 35) + 200 * tier (activity onb))%Z.
Proof.
  unfold waterTargetMl. cbv zeta. rewrite <- round_add_Z.
  apply Qfloor_comp.
  destruct (activity onb); cbn [tier];
    match goal with
    | |- context [inject_Z ?z] =>
        let q := eval vm_compute in (inject_Z z) in change (inject_Z z) with q
    end; ring.
Qed.

(** X5.  For a whole weight the water target is exactly 35 ml per kg
    plus 200 ml per activity level above sedentary, and for any weight one
    level up adds exactly 200 ml. *)
Theorem waterTargetMl_per_kg_and_level :
  (forall (onb : OnboardingData) (w : Z),
      waterTargetMl (with_weight (inject_Z w) onb)
      = (35 * w + 200 * tier (activity onb))%Z)
  /\ (forall (onb : OnboardingData) (l l' : ActivityLevel),
         (waterTargetMl (with_activity l' onb)
          - waterTargetMl (with_activity l onb))%Z
         = (200 * (tier l' - tier l))%Z).
Proof.
  split.
  - intros onb w. rewrite waterTargetMl_split.
    cbn [weight activity with_weight].
    replace (Math.round (inject_Z w * 35)) with (35 * w)%Z; [reflexivity |].
    rewrite <- (round_Z (35 * w)). apply Qfloor_comp.
    rewrite inject_Z_mult. change (inject_Z 35) with 35. ring.
  - intros onb l l'. rewrite !waterTargetMl_split.
    cbn [weight activity with_activity]. lia.
Qed.

(** ** Picking from the pantry *)

Lemma pick_submseteq {T : Type} (n : nat) (copy : list T) (s : Draws) :
  (pick copy n s).1 ⊆+ copy.
Proof.
  revert copy s. induction n as [| n IH]; intros copy s.
  - apply submseteq_nil_l.
  - destruct copy as [| x l]; [apply submseteq_nil_l |].
    cbn [pick]. unfold mbind, Rand_bind, mret, Rand_ret, random. cbn [fst snd].
    set (i := Z.to_nat _).
    destruct ((x :: l) !! i) as [y |] eqn:Hy; [| apply submseteq_nil_l].
    cbn [fst]. etrans; [apply submseteq_skip, IH |].
    apply Permutation_submseteq. symmetry. now apply delete_Permutation.
Qed.

(** X6.  [pick] draws without replacement: its answer holds [n]
    elements, or all of them when the array is shorter, each taken from a
    different position of the array; so from an array without repeats it
    never answers the same element twice. *)
Theorem pick_without_replacement {T : Type} (n : nat) (copy : list T)
    (s : Draws) :
  length (pick copy n s).1 = Nat.min n (length copy)
  /\ (pick copy n s).1 ⊆+ copy
  /\ (NoDup copy -> NoDup (pick copy n s).1).
Proof.
  split; [apply pick_length | split; [apply pick_submseteq |]].
  intros ND. destruct (submseteq_Permutation _ _ (pick_submseteq n copy s))
    as [rest Hrest].
  rewrite Hrest in ND. now apply NoDup_app in ND as [ND _].
Qed.

Lemma pick_without_replacement_veggies :
  NoDup pantry.veggies /\ NoDup (pick pantry.veggies 2 halves).1.
Proof.
  assert (ND : NoDup pantry.veggies)
    by (apply (bool_decide_unpack _); vm_compute; exact I).
  split; [exact ND |].
  exact (proj2 (proj2 (pick_without_replacement 2 pantry.veggies halves)) ND).
Defined.

(** ** Generated meals *)

Lemma pick_one (l : list string) (s : Draws) :
  l <> [] -> exists x : string, (pick l 1 s).1 = [x] /\ x ∈ l.
Proof.
  intros Hne. pose proof (pick_length 1 l s) as Hlen.
  pose proof (pick_submseteq 1 l s) as Hsub.
  destruct l as [| a l]; [congruence |]. cbn [length Nat.min] in Hlen.
  destruct (pick (a :: l) 1 s).1 as [| x [| y r]] eqn:E; try discriminate.
  exists x. split; [reflexivity |].
  eapply elem_of_submseteq; [| exact Hsub]. set_solver.
Qed.

Lemma pick_two (l : list string) (s : Draws) :
  NoDup l -> (2 <= length l)%nat ->
  exists x y : string,
    (pick l 2 s).1 = [x; y] /\ x ∈ l /\ y ∈ l /\ x <> y.
Proof.
  intros ND Hl. pose proof (pick_length 2 l s) as Hlen.
  pose proof (pick_submseteq 2 l s) as Hsub.
  rewrite Nat.min_l in Hlen by assumption.
  destruct (pick l 2 s).1 as [| x [| y [| z r]]] eqn:E; try discriminate.
  exists x, y. split; [reflexivity |].
  split; [eapply elem_of_submseteq; [| exact Hsub]; set_solver |].
  split; [eapply elem_of_submseteq; [| exact Hsub]; set_solver |].
  destruct (submseteq_Permutation _ _ Hsub) as [rest Hrest].
  rewrite Hrest in ND. apply NoDup_app in ND as [ND _].
  apply NoDup_cons in ND as [Hnotin _]. set_solver.
Qed.

(** X7.  Every generated meal lists five ingredients: one protein, one
    carbohydrate and one fat of the pantry and then two different
    vegetables of it; and it is tagged halal. *)
Theorem buildMeal_from_pantry (toString36 : Q -> string) (title : string)
    (k p c f : Q) (s : Draws) :
  let m := (buildMeal toString36 title k p c f s).1 in
  (exists prot carb fat v1 v2 : string,
      ingredients m = [prot; carb; fat; v1; v2]
      /\ prot ∈ pantry.proteins /\ carb ∈ pantry.carbs /\ fat ∈ pantry.fats
      /\ v1 ∈ pantry.veggies /\ v2 ∈ pantry.veggies /\ v1 <> v2)
  /\ tags m = Some ["halal"].
Proof.
  cbv zeta. split; [| reflexivity].
  unfold buildMeal, mbind, Rand_bind, mret, Rand_ret, fmap, Rand_fmap.
  cbn [fst snd ingredients].
  set (s1 := (pick pantry.proteins 1 s).2).
  set (s2 := (pick pantry.carbs 1 s1).2).
  set (s3 := (pick pantry.fats 1 s2).2).
  destruct (pick_one pantry.proteins s) as (x1 & E1 & H1); [discriminate |].
  destruct (pick_one pantry.carbs s1) as (x2 & E2 & H2); [discriminate |].
  destruct (pick_one pantry.fats s2) as (x3 & E3 & H3); [discriminate |].
  destruct (pick_two pantry.veggies s3) as (v1 & v2 & E4 & H4 & H5 & H6).
  { apply (bool_decide_unpack _). vm_compute. exact I. }
  { cbn. lia. }
  rewrite E1, E2, E3, E4. exists x1, x2, x3, v1, v2.
  repeat split; assumption.
Qed.

Lemma draw_scaled (r : Draw) (n : Z) :
  (0 < n)%Z -> (0 <= Math.floor (r * inject_Z n) < n)%Z.
Proof.
  intros Hn. destruct r as [v Hv]. cbn [draw_val].
  apply andb_true_iff in Hv as [H0 H1].
  apply Qle_bool_iff in H0. apply ltb_lt in H1.
  assert (Hpos : 0 < inject_Z n)
    by (change 0 with (inject_Z 0); now rewrite <- Zlt_Qlt).
  unfold Math.floor. split.
  - change 0%Z with (Qfloor 0). apply Qfloor_resp_le.
    apply Qmult_le_0_compat; [assumption | now apply Qlt_le_weak].
  - rewrite Zlt_Qlt. eapply Qle_lt_trans; [apply Qfloor_le |].
    rewrite <- (Qmult_1_l (inject_Z n)) at 2.
    now apply Qmult_lt_compat_r.
Qed.

(** X8.  The preparation time of a generated meal is a whole number of
    minutes from 15 to 29, so its duration always prints in the
    minutes-only form. *)
Theorem buildMeal_timeMins (toString36 : Q -> string) (title : string)
    (k p c f : Q) (s : Draws) :
  let m := (buildMeal toString36 title k p c f s).1 in
  (15 <= timeMins m <= 29)%Z
  /\ formatTime (timeMins m) = pretty (timeMins m) +:+ " د".
Proof.
  cbv zeta.
  assert (Hr : (15 <= timeMins (buildMeal toString36 title k p c f s).1 <= 29)%Z).
  { unfold buildMeal, mbind, Rand_bind, mret, Rand_ret, fmap, Rand_fmap, random.
    cbn [fst snd timeMins].
    match goal with
    | |- context [Math.floor (draw_val ?r * 15)] =>
        pose proof (draw_scaled r 15 eq_refl) as Hd;
        change (inject_Z 15) with 15 in Hd
    end.
    lia. }
  split; [exact Hr |].
  unfold formatTime.
  replace (timeMins (buildMeal toString36 title k p c f s).1 <? 60)%Z
    with true by (symmetry; apply Z.ltb_lt; lia).
  reflexivity.
Qed.

(** ** A fresh day *)

Lemma zero_ratio (m : Q) : 0 / m * 100 == 0.
Proof. unfold Qdiv. ring. Qed.

Lemma initDay_fields (toString36 : Q -> string) (today : string)
    (onb : OnboardingData) (s : Draws) :
  let d := (initDay toString36 today onb s).1 in
  date d = today /\ sleepPct d = 70 /\ sittingHrs d = 7 /\ steps d = 2500
  /\ stepsGoal d = match activity onb with sedentary => 6000 | _ => 9000 end
  /\ waterMl d = 0 /\ waterTarget d = inject_Z (waterTargetMl onb)
  /\ kcalConsumed d = 0 /\ kcalTarget d = inject_Z (tdeeFrom onb)
  /\ (meals d, snacks d)
     = (generateMealsForDay toString36 (inject_Z (tdeeFrom onb)) (goal onb) s).1
  /\ prayerDone d = false /\ workoutDone d = false.
Proof.
  cbv zeta. unfold initDay, mbind, Rand_bind, mret, Rand_ret.
  cbn [fst date sleepPct sittingHrs steps stepsGoal waterMl waterTarget
       kcalConsumed kcalTarget meals snacks prayerDone workoutDone].
  repeat split.
Qed.

(** X9.  A day made by [initDay] is, for every profile, not complete (so
    completing it leaves the streak alone), gets the hydration nudge and
    has a halo of 36 for a sedentary profile and of 34 for any other. *)
Theorem initDay_fresh (toString36 : Q -> string) (today : string)
    (onb : OnboardingData) (s : Draws) :
  let d := (initDay toString36 today onb s).1 in
  ok d = false
  /\ (forall (yesterday : string) (streak : Z) (m : gmap string string),
         st_streak (completeDay yesterday (session d streak m)) = streak)
  /\ pickNudge d = Nudge.water
  /\ haloScore d = match activity onb with sedentary => 36 | _ => 34 end%Z.
Proof.
  cbv zeta.
  destruct (initDay_fields toString36 today onb s)
    as (_ & Hsl & _ & Hst & Hsg & Hw & _ & _ & _ & _ & Hp & Hwo).
  set (d := (initDay toString36 today onb s).1) in *.
  assert (Hok : ok d = false).
  { unfold ok. rewrite Hst, Hsg.
    destruct (activity onb); apply andb_false_r. }
  split; [exact Hok |]. split; [| split].
  - intros yesterday streak m. unfold completeDay. cbn [st_day session].
    now rewrite Hok.
  - apply pickNudge_water_iff. rewrite Hw. unfold Qdiv.
    rewrite Qmult_0_l. reflexivity.
  - unfold haloScore, Math.round. rewrite Hsl, Hst, Hsg, Hw, Hp, Hwo.
    destruct (activity onb);
      match goal with
      | |- Qfloor ?x = ?z =>
          transitivity
            (Qfloor ((clamp 0 0 100 + clamp 70 0 100
                      + clamp (2500 / Math.max 1 (if (z =? 36)%Z then 6000 else 9000) * 100) 0 100
                      + 30 + 40) / 5 + (1 # 2)));
          [apply Qfloor_comp; now rewrite zero_ratio | reflexivity]
      end.
Qed.

(** ** Eating the plan *)

Lemma plan_total_near (toString36 : Q -> string) (dayKcal : Q) (goal : Goal)
    (s : Draws) :
  let plan := (generateMealsForDay toString36 dayKcal goal s).1 in
  - (5 # 2) <= total_kcal (plan.1 ++ plan.2) - dayKcal
  /\ total_kcal (plan.1 ++ plan.2) - dayKcal <= 5 # 2.
Proof.
  cbv zeta.
  destruct (generateMealsForDay_shape toString36 dayKcal goal s)
    as (m1 & m2 & m3 & s1 & s2 & -> & K1 & K2 & K3 & K4 & K5).
  cbn [fst snd app]. unfold total_kcal. cbn [foldl].
  rewrite K1, K2, K3, K4, K5.
  set (M := inject_Z (Math.round (dayKcal * 0.75))).
  pose proof (round_near (M / 3)) as [A1 A2].
  pose proof (round_near ((dayKcal - M) / 2)) as [B1 B2].
  assert (E3 : 3 * (M / 3) == M) by (field; discriminate).
  assert (E2 : 2 * ((dayKcal - M) / 2) == dayKcal - M) by (field; discriminate).
  set (x := M / 3) in *. set (y := (dayKcal - M) / 2) in *.
  split; lra.
Qed.

Lemma eat_all_frame (ms : list Meal) (d : DayData) :
  kcalTarget (eat_all ms d) = kcalTarget d
  /\ waterMl (eat_all ms d) = waterMl d
  /\ waterTarget (eat_all ms d) = waterTarget d
  /\ steps (eat_all ms d) = steps d
  /\ stepsGoal (eat_all ms d) = stepsGoal d.
Proof.
  revert d. induction ms as [| m ms IH]; intros d; [repeat split |].
  unfold eat_all in *. cbn [foldl].
  destruct (IH (HomeScreen.ate m d)) as (-> & -> & -> & -> & ->).
  repeat split.
Qed.

Lemma eat_all_kcal (ms : list Meal) (d : DayData) :
  kcalConsumed (eat_all ms d) == kcalConsumed d + total_kcal ms.
Proof.
  unfold eat_all, total_kcal.
  assert (G : forall (acc : Q) (d : DayData),
             kcalConsumed (foldl (fun d m => HomeScreen.ate m d) d ms)
               + acc
             == kcalConsumed d + foldl (fun s m => s + kcal m) acc ms).
  { induction ms as [| m ms IH]; intros acc d'; cbn [foldl]; [reflexivity |].
    pose proof (IH (acc + kcal m) (HomeScreen.ate m d')) as H.
    change (kcalConsumed (HomeScreen.ate m d'))
      with (kcalConsumed d' + kcal m) in H.
    set (X := kcalConsumed (foldl _ (HomeScreen.ate m d') ms)) in *.
    set (F := foldl _ (acc + kcal m) ms) in *.
    lra. }
  rewrite <- G. ring.
Qed.

(** Two different nudge texts are never equal. *)
Ltac nudge_clash :=
  let E := fresh "E" in
  intros E; apply String.eqb_eq in E; vm_compute in E; discriminate E.

Lemma pickNudge_snack_inv (d : DayData) :
  pickNudge d = Nudge.snack -> 300 < kcalTarget d - kcalConsumed d.
Proof.
  unfold pickNudge. cbv zeta.
  destruct (ltb (waterMl d / _) 0.5);
    [nudge_clash |].
  destruct (ltb (steps d) _);
    [nudge_clash |].
  destruct (gtb _ 300) eqn:G; [intros _; now apply gtb_gt |].
  destruct (negb _);
    [nudge_clash |].
  destruct (gtb _ 8); nudge_clash.
Qed.

Lemma pickNudge_walk_inv (d : DayData) :
  pickNudge d = Nudge.walk -> steps d < stepsGoal d / 2.
Proof.
  unfold pickNudge. cbv zeta.
  destruct (ltb (waterMl d / _) 0.5);
    [nudge_clash |].
  destruct (ltb (steps d) _) eqn:G; [intros _; now apply ltb_lt |].
  destruct (gtb _ 300);
    [nudge_clash |].
  destruct (negb _);
    [nudge_clash |].
  destruct (gtb _ 8); nudge_clash.
Qed.

(** X10.  When every meal and snack of a fresh day's plan is marked
    eaten once, the calories consumed end within 60 kcal of the day's
    target, the remaining-calories figure is at most 60 and the
    protein-snack nudge is not given. *)
Theorem eat_all_meets_target (toString36 : Q -> string) (today : string)
    (onb : OnboardingData) (s : Draws) :
  let d := (initDay toString36 today onb s).1 in
  let d' := eat_all (meals d ++ snacks d) d in
  - (60) <= kcalConsumed d' - kcalTarget d'
  /\ kcalConsumed d' - kcalTarget d' <= 60
  /\ HomeScreen.leftKcal d' <= 60
  /\ pickNudge d' <> Nudge.snack.
Proof.
  cbv zeta.
  destruct (initDay_fields toString36 today onb s)
    as (_ & _ & _ & _ & _ & _ & _ & Hkc & Hkt & Hms & _ & _).
  set (d := (initDay toString36 today onb s).1) in *.
  pose proof (plan_total_near toString36 (inject_Z (tdeeFrom onb)) (goal onb) s)
    as [N1 N2].
  cbv zeta in N1, N2. rewrite <- Hms in N1, N2. cbn [fst snd] in N1, N2.
  pose proof (eat_all_kcal (meals d ++ snacks d) d) as Hk.
  destruct (eat_all_frame (meals d ++ snacks d) d) as (Ht & _).
  rewrite Hkc in Hk. rewrite <- Hkt in N1, N2.
  set (d' := eat_all (meals d ++ snacks d) d) in *.
  rewrite <- Ht in N1, N2.
  set (T := total_kcal (meals d ++ snacks d)) in *.
  assert (B1 : - (60) <= kcalConsumed d' - kcalTarget d') by lra.
  assert (B2 : kcalConsumed d' - kcalTarget d' <= 60) by lra.
  split; [exact B1 |]. split; [exact B2 |]. split.
  - unfold HomeScreen.leftKcal, Math.max. apply Q.max_lub; [discriminate | lra].
  - intros E. apply pickNudge_snack_inv in E. lra.
Qed.

(** ** The halo under the flags and on a complete day *)




Lemma pct_nine_tenths (a t : Q) : 1 <= t -> t * 0.9 <= a -> 90 <= a / t * 100.
Proof.
  intros Ht H. assert (Hpos : 0 < t) by lra.
  apply Qle_trans with (0.9 * 100); [discriminate |].
  apply Qmult_le_compat_r; [| discriminate].
  apply Qle_shift_div_l; [assumption | lra].
Qed.

(** X12.  The halo is never below 14, and the halo of a complete day
    whose targets are at least one is never below 50. *)
Theorem haloScore_floors (d : DayData) :
  (14 <= haloScore d)%Z
  /\ (ok d = true -> 1 <= waterTarget d -> 1 <= stepsGoal d ->
      (50 <= haloScore d)%Z).
Proof.
  pose proof (clamp_bounds (waterMl d / Math.max 1 (waterTarget d) * 100) 0 100)
    as [A _]; [discriminate |].
  pose proof (clamp_bounds (sleepPct d) 0 100) as [B _]; [discriminate |].
  pose proof (clamp_bounds (steps d / Math.max 1 (stepsGoal d) * 100) 0 100)
    as [C _]; [discriminate |].
  split.
  - rewrite <- (round_Z 14). unfold haloScore. apply round_mono.
    apply Qle_shift_div_l; [reflexivity |].
    change (inject_Z 14) with 14.
    destruct (prayerDone d), (workoutDone d); lra.
  - intros Hok Hw Hs. apply ok_iff in Hok as [Ow Os].
    assert (Aw : 90 <= clamp (waterMl d / Math.max 1 (waterTarget d) * 100) 0 100).
    { rewrite (max1_ge1 _ Hw). apply Qle_trans with (clamp 90 0 100);
        [discriminate |]. apply clamp_mono, pct_nine_tenths; [assumption | lra]. }
    assert (As : 90 <= clamp (steps d / Math.max 1 (stepsGoal d) * 100) 0 100).
    { rewrite (max1_ge1 _ Hs). apply Qle_trans with (clamp 90 0 100);
        [discriminate |]. apply clamp_mono, pct_nine_tenths; [assumption | lra]. }
    rewrite <- (round_Z 50). unfold haloScore. apply round_mono.
    apply Qle_shift_div_l; [reflexivity |].
    change (inject_Z 50) with 50.
    destruct (prayerDone d), (workoutDone d); lra.
Qed.

Lemma haloScore_floors_nine_tenths :
  ok nine_tenths = true /\ 1 <= waterTarget nine_tenths
  /\ 1 <= stepsGoal nine_tenths /\ (50 <= haloScore nine_tenths)%Z.
Proof.
  assert (Hok : ok nine_tenths = true) by reflexivity.
  assert (Hw : 1 <= waterTarget nine_tenths) by discriminate.
  assert (Hs : 1 <= stepsGoal nine_tenths) by discriminate.
  split; [exact Hok |]. split; [exact Hw |]. split; [exact Hs |].
  exact (proj2 (haloScore_floors nine_tenths) Hok Hw Hs).
Defined.

(** X13.  A complete day whose water target is at least one and whose
    step goal is not negative gets neither the hydration nor the movement
    nudge. *)
Theorem complete_day_nudges (d : DayData) :
  ok d = true -> 1 <= waterTarget d -> 0 <= stepsGoal d ->
  pickNudge d <> Nudge.water /\ pickNudge d <> Nudge.walk.
Proof.
  intros Hok Hw Hs. apply ok_iff in Hok as [Ow Os]. split; intros E.
  - apply pickNudge_water_iff in E. rewrite (max1_ge1 _ Hw) in E.
    assert (Hpos : 0 < waterTarget d) by lra.
    assert (H9 : 0.9 <= waterMl d / waterTarget d)
      by (apply Qle_shift_div_l; [assumption | lra]).
    lra.
  - apply pickNudge_walk_inv in E.
    assert (Hh : stepsGoal d / 2 == 0.5 * stepsGoal d) by field.
    rewrite Hh in E. lra.
Qed.

Lemma complete_day_nudges_nine_tenths :
  ok nine_tenths = true /\ 1 <= waterTarget nine_tenths
  /\ 0 <= stepsGoal nine_tenths
  /\ pickNudge nine_tenths <> Nudge.water
  /\ pickNudge nine_tenths <> Nudge.walk.
Proof.
  assert (Hok : ok nine_tenths = true) by reflexivity.
  assert (Hw : 1 <= waterTarget nine_tenths) by discriminate.
  assert (Hs : 0 <= stepsGoal nine_tenths) by discriminate.
  split; [exact Hok |]. split; [exact Hw |]. split; [exact Hs |].
  exact (complete_day_nudges nine_tenths Hok Hw Hs).
Defined.

(** ** The storage keys *)

Lemma K_day_inj (d d' : string) : K.day d = K.day d' -> d = d'.
Proof. unfold K.day. cbn. intros H. now simplify_eq. Qed.

Lemma K_journal_inj (d d' : string) : K.journal d = K.journal d' -> d = d'.
Proof. unfold K.journal. cbn. intros H. now simplify_eq. Qed.

Lemma K_day_not_journal (d d' : string) : K.day d <> K.journal d'.
Proof. unfold K.day, K.journal. cbn. intros H. discriminate H. Qed.

Lemma K_day_not_streak (d : string) : K.day d <> K.streak.
Proof. unfold K.day, K.streak. cbn. intros H. discriminate H. Qed.

Lemma K_day_not_onboarding (d : string) : K.day d <> K.onboarding.
Proof. unfold K.day, K.onboarding. cbn. intros H. discriminate H. Qed.

Lemma K_journal_not_streak (d : string) : K.journal d <> K.streak.
Proof. unfold K.journal, K.streak. cbn. intros H. discriminate H. Qed.

Lemma K_journal_not_onboarding (d : string) : K.journal d <> K.onboarding.
Proof. unfold K.journal, K.onboarding. cbn. intros H. discriminate H. Qed.

Lemma K_streak_not_onboarding : K.streak <> K.onboarding.
Proof. intros H. discriminate H. Qed.

(** X14.  The keys of the storage never collide: a day key and a journal
    key determine their date, and the day keys, the journal keys, the
    streak key and the onboarding key are different from each other. *)
Theorem K_layout :
  (forall d d' : string, K.day d = K.day d' <-> d = d')
  /\ (forall d d' : string, K.journal d = K.journal d' <-> d = d')
  /\ (forall d d' : string, K.day d <> K.journal d')
  /\ (forall d : string,
         K.day d <> K.streak /\ K.day d <> K.onboarding
         /\ K.journal d <> K.streak /\ K.journal d <> K.onboarding)
  /\ K.streak <> K.onboarding.
Proof.
  split; [| split; [| split; [| split]]].
  - intros d d'. split; [apply K_day_inj | now intros ->].
  - intros d d'. split; [apply K_journal_inj | now intros ->].
  - apply K_day_not_journal.
  - intros d. split; [apply K_day_not_streak |].
    split; [apply K_day_not_onboarding |].
    split; [apply K_journal_not_streak | apply K_journal_not_onboarding].
  - apply K_streak_not_onboarding.
Qed.

(** ** Completing a day, again *)

Lemma completeDay_step (yesterday : string) (a : App) (day : DayData) :
  st_day a = Some day -> ok day = true ->
  let a' := completeDay yesterday a in
  st_day a' = Some day
  /\ storage a' !! K.day yesterday = storage a !! K.day yesterday
  /\ length (alerts a') = S (length (alerts a))
  /\ st_streak a'
     = (if truthy (storage a !! K.day yesterday) then st_streak a + 1 else 1)%Z.
Proof.
  intros Hday Hok. cbv zeta.
  unfold completeDay, KVStorage.getItem, KVStorage.setItem.
  rewrite Hday, Hok. cbn [st_day storage alerts st_streak].
  split; [reflexivity |]. split; [| split; [| reflexivity]].
  - apply lookup_insert_ne. intros E. symmetry in E.
    now apply K_day_not_streak in E.
  - rewrite length_app. cbn. lia.
Qed.

(** X15.  Nothing stops [completeDay] from counting the same complete day
    again: pressed [n] times with a record of the day before in the
    storage it raises the streak by [n]; with no such record the streak is
    1 after any number of presses; each press shows one alert. *)
Theorem completeDay_pressed_again (n : nat) (yesterday : string) (a : App)
    (day : DayData) :
  st_day a = Some day -> ok day = true ->
  let a' := Nat.iter n (completeDay yesterday) a in
  (forall record : string,
      storage a !! K.day yesterday = Some record -> record <> "" ->
      st_streak a' = (st_streak a + Z.of_nat n)%Z)
  /\ (storage a !! K.day yesterday = None -> (1 <= n)%nat ->
      st_streak a' = 1%Z)
  /\ length (alerts a') = (length (alerts a) + n)%nat.
Proof.
  intros Hday Hok. cbv zeta.
  assert (Inv : forall k : nat,
             let b := Nat.iter k (completeDay yesterday) a in
             st_day b = Some day
             /\ storage b !! K.day yesterday = storage a !! K.day yesterday
             /\ length (alerts b) = (length (alerts a) + k)%nat).
  { induction k as [| k (I1 & I2 & I3)];
      [split; [exact Hday | split; [reflexivity |]];
       change (Nat.iter 0 (completeDay yesterday) a) with a; lia |].
    rewrite Nat.iter_succ.
    destruct (completeDay_step yesterday _ day I1 Hok) as (S1 & S2 & S3 & _).
    split; [exact S1 |]. split; [now rewrite S2 |]. rewrite S3, I3. lia. }
  split; [| split].
  - intros record Hrec Hne. induction n as [| n IH];
      [change (Nat.iter 0 (completeDay yesterday) a) with a; lia |].
    rewrite Nat.iter_succ. destruct (Inv n) as (I1 & I2 & _).
    destruct (completeDay_step yesterday _ day I1 Hok) as (_ & _ & _ & S4).
    rewrite S4, I2, Hrec, (truthy_record _ Hne), IH. lia.
  - intros Hnone Hn. destruct n as [| n]; [lia |].
    rewrite Nat.iter_succ. destruct (Inv n) as (I1 & I2 & _).
    destruct (completeDay_step yesterday _ day I1 Hok) as (_ & _ & _ & S4).
    now rewrite S4, I2, Hnone.
  - apply (Inv n).
Qed.

Lemma completeDay_pressed_again_twice :
  ok nine_tenths = true
  /\ with_yesterday !! K.day "2024-12-31" = Some "{}"
  /\ st_streak (Nat.iter 2 (completeDay "2024-12-31")
                  (session nine_tenths 4 with_yesterday)) = (4 + 2)%Z
  /\ (∅ : gmap string string) !! K.day "2024-12-31" = None
  /\ st_streak (Nat.iter 2 (completeDay "2024-12-31")
                  (session nine_tenths 4 ∅)) = 1%Z.
Proof.
  assert (Hok : ok nine_tenths = true) by reflexivity.
  assert (Hrec : with_yesterday !! K.day "2024-12-31" = Some "{}")
    by (vm_compute; reflexivity).
  assert (Hnone : (∅ : gmap string string) !! K.day "2024-12-31" = None)
    by apply lookup_empty.
  destruct (completeDay_pressed_again 2 "2024-12-31"
              (session nine_tenths 4 with_yesterday) nine_tenths eq_refl Hok)
    as (H1 & _ & _).
  destruct (completeDay_pressed_again 2 "2024-12-31"
              (session nine_tenths 4 ∅) nine_tenths eq_refl Hok)
    as (_ & H2 & _).
  split; [exact Hok |]. split; [exact Hrec |].
  split; [refine (H1 "{}" Hrec _); discriminate |].
  split; [exact Hnone |]. apply (H2 Hnone). lia.
Defined.

(** X16.  [completeDay] leaves the day cell as it is and writes no key
    but the streak key: day records, journals and the profile stay as
    stored; and either nothing changed, or the streak key holds the
    decimal text of the new streak. *)
Theorem completeDay_writes_streak_only (yesterday : string) (a : App) :
  let a' := completeDay yesterday a in
  st_day a' = st_day a
  /\ (forall k : string, k <> K.streak -> storage a' !! k = storage a !! k)
  /\ (forall d : string,
         storage a' !! K.day d = storage a !! K.day d
         /\ storage a' !! K.journal d = storage a !! K.journal d)
  /\ storage a' !! K.onboarding = storage a !! K.onboarding
  /\ ((storage a' = storage a /\ st_streak a' = st_streak a)
      \/ storage a' !! K.streak = Some (pretty (st_streak a'))).
Proof.
  cbv zeta.
  assert (Hk : forall k : string, k <> K.streak ->
               storage (completeDay yesterday a) !! k = storage a !! k).
  { intros k Hne. unfold completeDay, KVStorage.setItem.
    destruct (st_day a) as [day |]; [| reflexivity].
    destruct (ok day); cbn [storage]; [| reflexivity].
    apply lookup_insert_ne. congruence. }
  split; [| split; [exact Hk | split; [| split]]].
  - unfold completeDay. destruct (st_day a) as [day |] eqn:E; [| exact E].
    now destruct (ok day).
  - intros d. split; apply Hk;
      [apply K_day_not_streak | apply K_journal_not_streak].
  - apply Hk. intros E. symmetry in E. now apply K_streak_not_onboarding in E.
  - unfold completeDay, KVStorage.setItem.
    destruct (st_day a) as [day |]; [| now left].
    destruct (ok day); cbn [storage st_streak]; [right | now left].
    apply lookup_insert_eq.
Qed.

Lemma completeDay_writes_streak_only_yesterday :
  K.day "2024-12-31" <> K.streak
  /\ storage (completeDay "2024-12-31" (session nine_tenths 4 with_yesterday))
       !! K.day "2024-12-31"
     = with_yesterday !! K.day "2024-12-31".
Proof.
  assert (Hne : K.day "2024-12-31" <> K.streak) by apply K_day_not_streak.
  split; [exact Hne |].
  exact (proj1 (proj2 (completeDay_writes_streak_only "2024-12-31"
                         (session nine_tenths 4 with_yesterday)))
           (K.day "2024-12-31") Hne).
Defined.

(** ** The counters and the timers *)

(** X17.  A counter that holds a value that is not negative, with a step
    that is not negative, never goes below zero, whatever buttons are
    pressed; minus stops at zero, so plus after a minus that hit zero
    lands on the step, not on the old value. *)
Theorem Counter_never_negative (step : Z) :
  (0 <= step)%Z ->
  (forall (value : Z) (presses : list Press),
      (0 <= value)%Z -> (0 <= foldl (press step) value presses)%Z)
  /\ (forall value : Z,
         (0 <= value)%Z ->
         Counter.minus (Counter.plus value step) step = value)
  /\ (forall value : Z,
         (0 <= value < step)%Z ->
         Counter.minus value step = 0%Z
         /\ Counter.plus (Counter.minus value step) step = step).
Proof.
  intros Hstep. unfold Counter.minus, Counter.plus. split; [| split].
  - intros value presses. revert value.
    induction presses as [| p ps IH]; intros value Hv; [exact Hv |].
    cbn [foldl]. apply IH.
    destruct p; unfold press, Counter.minus, Counter.plus; lia.
  - intros value Hv. lia.
  - intros value Hv. lia.
Qed.

Lemma Counter_never_negative_rest :
  (0 <= 15)%Z
  /\ (0 <= 60)%Z
  /\ (0 <= foldl (press 15) 60 [Minus; Minus; Minus; Minus; Minus; Plus])%Z
  /\ (0 <= 10 < 15)%Z
  /\ Counter.plus (Counter.minus 10 15) 15 = 15%Z.
Proof.
  assert (Hs : (0 <= 15)%Z) by lia. assert (Hv : (0 <= 60)%Z) by lia.
  assert (Hl : (0 <= 10 < 15)%Z) by lia.
  destruct (Counter_never_negative 15 Hs) as (Hinv & _ & Hfloor).
  split; [exact Hs |]. split; [exact Hv |].
  split; [exact (Hinv 60%Z _ Hv) |]. split; [exact Hl |].
  exact (proj2 (Hfloor 10%Z Hl)).
Defined.

Lemma rest_iter (rest : Z) (g : GymScreen.Rest) (k : nat) :
  (0 <= rest)%Z ->
  Nat.iter k GymScreen.tick (GymScreen.startRest rest g)
  = if (Z.of_nat k <? rest)%Z || (k =? 0)%nat
    then {| GymScreen.timer := rest - Z.of_nat k; GymScreen.ticking := true |}
    else {| GymScreen.timer := 0; GymScreen.ticking := false |}.
Proof.
  intros Hr. induction k as [| k IH].
  - change (Nat.iter 0 GymScreen.tick (GymScreen.startRest rest g))
      with (GymScreen.startRest rest g).
    rewrite orb_true_r. unfold GymScreen.startRest. f_equal. lia.
  - rewrite Nat.iter_succ, IH. clear IH. unfold GymScreen.tick.
    replace (S k =? 0)%nat with false by reflexivity. rewrite orb_false_r.
    destruct (Z.of_nat (S k) <? rest)%Z eqn:E1;
      [apply Z.ltb_lt in E1 | apply Z.ltb_ge in E1].
    + replace (Z.of_nat k <? rest)%Z with true
        by (symmetry; apply Z.ltb_lt; lia).
      cbn [orb GymScreen.ticking GymScreen.timer].
      replace (rest - Z.of_nat k <=? 1)%Z with false
        by (symmetry; apply Z.leb_gt; lia).
      f_equal. lia.
    + destruct ((Z.of_nat k <? rest)%Z || (k =? 0)%nat) eqn:E2;
        cbn [GymScreen.ticking GymScreen.timer]; [| reflexivity].
      replace (rest - Z.of_nat k <=? 1)%Z with true; [reflexivity |].
      symmetry. apply Z.leb_le. lia.
Qed.

(** X18.  A rest timer started from a rest that is not negative shows a
    value between zero and the rest after every tick, counts down by one
    per tick while ticks are fewer than the rest, and from the tick that
    reaches the rest on (the first tick for a rest of zero) it shows zero
    with its interval cleared. *)
Theorem rest_timer_countdown (rest : Z) (g : GymScreen.Rest) (k : nat) :
  (0 <= rest)%Z ->
  let g' := Nat.iter k GymScreen.tick (GymScreen.startRest rest g) in
  (0 <= GymScreen.timer g' <= rest)%Z
  /\ ((Z.of_nat k < rest)%Z ->
      GymScreen.timer g' = (rest - Z.of_nat k)%Z
      /\ GymScreen.ticking g' = true)
  /\ ((1 <= k)%nat -> (rest <= Z.of_nat k)%Z ->
      GymScreen.timer g' = 0%Z /\ GymScreen.ticking g' = false).
Proof.
  intros Hr. cbv zeta. rewrite (rest_iter rest g k Hr).
  destruct (Z.of_nat k <? rest)%Z eqn:E1;
    [apply Z.ltb_lt in E1 | apply Z.ltb_ge in E1].
  - cbn [orb GymScreen.timer GymScreen.ticking].
    split; [lia |]. split; [now intros _ | lia].
  - destruct k as [| k]; cbn [orb Nat.eqb GymScreen.timer GymScreen.ticking].
    + split; [lia |]. split; lia.
    + split; [lia |]. split; [lia | now intros _ _].
Qed.

Lemma rest_timer_countdown_minute :
  (0 <= 60)%Z
  /\ GymScreen.timer
       (Nat.iter 45 GymScreen.tick
          (GymScreen.startRest 60 {| GymScreen.timer := 0;
                                     GymScreen.ticking := false |}))
     = (60 - 45)%Z
  /\ GymScreen.ticking
       (Nat.iter 60 GymScreen.tick
          (GymScreen.startRest 60 {| GymScreen.timer := 0;
                                     GymScreen.ticking := false |}))
     = false.
Proof.
  assert (Hr : (0 <= 60)%Z) by lia.
  split; [exact Hr |]. split.
  - refine (proj1 (proj1 (proj2 (rest_timer_countdown 60 _ 45 Hr)) _)). lia.
  - refine (proj2 (proj2 (proj2 (rest_timer_countdown 60 _ 60 Hr)) _ _)); lia.
Defined.

Lemma cook_iter (m : Meal) (c : KitchenScreen.Cook) (k : nat) :
  (1 <= timeMins m)%Z ->
  Nat.iter k KitchenScreen.tick (KitchenScreen.startCook m c)
  = if (Z.of_nat k <? timeMins m * 60)%Z
    then {| KitchenScreen.timer := timeMins m * 60 - Z.of_nat k;
            KitchenScreen.ticking := true;
            KitchenScreen.shown := KitchenScreen.shown c |}
    else {| KitchenScreen.timer := 0;
            KitchenScreen.ticking := false;
            KitchenScreen.shown :=
              KitchenScreen.shown c ++ [("بالهناء", "خلصت الوجبة!")] |}.
Proof.
  intros Hm. induction k as [| k IH].
  - change (Nat.iter 0 KitchenScreen.tick (KitchenScreen.startCook m c))
      with (KitchenScreen.startCook m c).
    replace (Z.of_nat 0 <? timeMins m * 60)%Z with true
      by (symmetry; apply Z.ltb_lt; lia).
    unfold KitchenScreen.startCook. f_equal. lia.
  - rewrite Nat.iter_succ, IH. clear IH. unfold KitchenScreen.tick.
    destruct (Z.of_nat (S k) <? timeMins m * 60)%Z eqn:E1;
      [apply Z.ltb_lt in E1 | apply Z.ltb_ge in E1].
    + replace (Z.of_nat k <? timeMins m * 60)%Z with true
        by (symmetry; apply Z.ltb_lt; lia).
      cbn [KitchenScreen.ticking KitchenScreen.timer KitchenScreen.shown].
      replace (timeMins m * 60 - Z.of_nat k <=? 1)%Z with false
        by (symmetry; apply Z.leb_gt; lia).
      f_equal. lia.
    + destruct (Z.of_nat k <? timeMins m * 60)%Z eqn:E2;
        cbn [KitchenScreen.ticking KitchenScreen.timer KitchenScreen.shown];
        [apply Z.ltb_lt in E2 | reflexivity].
      replace (timeMins m * 60 - Z.of_nat k <=? 1)%Z with true; [reflexivity |].
      symmetry. apply Z.leb_le. lia.
Qed.

(** X19.  A cook timer started for a meal of at least one minute counts
    down from sixty times its minutes by one per tick without an alert,
    and from the tick that reaches that number on it shows zero, its
    interval is cleared and exactly one alert has been raised. *)
Theorem cook_timer_finishes (m : Meal) (c : KitchenScreen.Cook) (k : nat) :
  (1 <= timeMins m)%Z ->
  let total := (timeMins m * 60)%Z in
  let c' := Nat.iter k KitchenScreen.tick (KitchenScreen.startCook m c) in
  ((Z.of_nat k < total)%Z ->
   KitchenScreen.timer c' = (total - Z.of_nat k)%Z
   /\ KitchenScreen.ticking c' = true
   /\ KitchenScreen.shown c' = KitchenScreen.shown c)
  /\ ((total <= Z.of_nat k)%Z ->
      KitchenScreen.timer c' = 0%Z
      /\ KitchenScreen.ticking c' = false
      /\ KitchenScreen.shown c'
         = KitchenScreen.shown c ++ [("بالهناء", "خلصت الوجبة!")]).
Proof.
  intros Hm. cbv zeta. rewrite (cook_iter m c k Hm).
  destruct (Z.of_nat k <? timeMins m * 60)%Z eqn:E1;
    [apply Z.ltb_lt in E1 | apply Z.ltb_ge in E1].
  - split; [now intros _ | lia].
  - split; [lia | now intros _].
Qed.

Lemma cook_timer_finishes_twenty_minutes :
  (1 <= timeMins twenty_minutes)%Z
  /\ KitchenScreen.timer
       (Nat.iter 30 KitchenScreen.tick
          (KitchenScreen.startCook twenty_minutes idle))
     = (20 * 60 - 30)%Z
  /\ KitchenScreen.shown
       (Nat.iter 1200 KitchenScreen.tick
          (KitchenScreen.startCook twenty_minutes idle))
     = [("بالهناء", "خلصت الوجبة!")].
Proof.
  assert (Hm : (1 <= timeMins twenty_minutes)%Z) by (cbn; lia).
  split; [exact Hm |]. split.
  - refine (proj1 (proj1 (cook_timer_finishes twenty_minutes idle 30 Hm) _)).
    cbn. lia.
  - refine (proj2 (proj2 (proj2 (cook_timer_finishes twenty_minutes idle 1200 Hm) _))).
    cbn. lia.
Defined.

(** X20.  The stop button of the cook timer sets the timer to zero and
    hides the timer line but leaves the interval alone: on a running
    timer the next tick still raises the alert of a finished meal, and
    only then is the interval cleared. *)
Theorem cook_timer_stop_still_alerts (c : KitchenScreen.Cook) :
  KitchenScreen.ticking c = true ->
  let stopped := KitchenScreen.stop c in
  KitchenScreen.display stopped = None
  /\ KitchenScreen.ticking stopped = true
  /\ KitchenScreen.shown stopped = KitchenScreen.shown c
  /\ KitchenScreen.tick stopped
     = {| KitchenScreen.timer := 0;
          KitchenScreen.ticking := false;
          KitchenScreen.shown :=
            KitchenScreen.shown c ++ [("بالهناء", "خلصت الوجبة!")] |}.
Proof.
  intros H. cbv zeta. unfold KitchenScreen.stop, KitchenScreen.tick,
    KitchenScreen.display.
  cbn [KitchenScreen.timer KitchenScreen.ticking KitchenScreen.shown].
  rewrite H. repeat split.
Qed.

Lemma cook_timer_stop_still_alerts_running :
  KitchenScreen.ticking (KitchenScreen.startCook twenty_minutes idle) = true
  /\ KitchenScreen.shown
       (KitchenScreen.tick
          (KitchenScreen.stop (KitchenScreen.startCook twenty_minutes idle)))
     = [("بالهناء", "خلصت الوجبة!")].
Proof.
  assert (H : KitchenScreen.ticking
                (KitchenScreen.startCook twenty_minutes idle) = true)
    by reflexivity.
  split; [exact H |].
  destruct (cook_timer_stop_still_alerts _ H) as (_ & _ & _ & E).
  now rewrite E.
Defined.

Lemma padStart_two_digits (z : Z) :
  (0 <= z < 60)%Z -> padStart 2 "0"%char (pretty z) = two_digits z.
Proof.
  intros Hz. replace z with (Z.of_nat (Z.to_nat z)) by lia.
  assert (Hn : (Z.to_nat z < 60)%nat) by lia.
  generalize dependent (Z.to_nat z). clear. intros n Hn.
  do 60 (destruct n as [| n]; [reflexivity |]). lia.
Qed.

(** X21.  The timer line is hidden at zero; for a positive timer it shows
    the whole minutes, a colon and the remaining seconds in two digits. *)
Theorem cook_timer_display (c : KitchenScreen.Cook) :
  (KitchenScreen.timer c = 0%Z -> KitchenScreen.display c = None)
  /\ ((0 < KitchenScreen.timer c)%Z ->
      KitchenScreen.display c
      = Some ("المؤقّت: " +:+ pretty (KitchenScreen.timer c / 60)%Z +:+ ":"
              +:+ two_digits (KitchenScreen.timer c mod 60)%Z)).
Proof.
  unfold KitchenScreen.display. split; intros H.
  - now rewrite H.
  - replace (KitchenScreen.timer c =? 0)%Z with false
      by (symmetry; apply Z.eqb_neq; lia).
    rewrite Z.rem_mod_nonneg by lia.
    rewrite padStart_two_digits; [reflexivity |].
    apply Z.mod_pos_bound. lia.
Qed.

Lemma cook_timer_display_start :
  (0 < KitchenScreen.timer (KitchenScreen.startCook twenty_minutes idle))%Z
  /\ KitchenScreen.display (KitchenScreen.startCook twenty_minutes idle)
     = Some ("المؤقّت: " +:+ "20:00")
  /\ KitchenScreen.timer idle = 0%Z
  /\ KitchenScreen.display idle = None.
Proof.
  assert (H : (0 < KitchenScreen.timer
                     (KitchenScreen.startCook twenty_minutes idle))%Z)
    by (cbn; lia).
  split; [exact H |]. split.
  - rewrite (proj2 (cook_timer_display _) H). reflexivity.
  - split; [reflexivity |].
    exact (proj1 (cook_timer_display idle) eq_refl).
Defined.

(** ** The chips of the onboarding modal *)

(** X22.  Pressing a gender, goal or activity chip leaves that option
    selected: it selects an option that was not selected and changes
    nothing when the option already was, so no press clears a choice; the
    other fields of the profile are never touched. *)
Theorem OnboardingModal_chips (data : OnboardingData) :
  (forall g : Gender,
      gender (OnboardingModal.press_gender g data) = g
      /\ OnboardingModal.press_gender g (OnboardingModal.press_gender g data)
         = OnboardingModal.press_gender g data
      /\ goal (OnboardingModal.press_gender g data) = goal data
      /\ activity (OnboardingModal.press_gender g data) = activity data)
  /\ (forall g : Goal,
         goal (OnboardingModal.press_goal g data) = g
         /\ OnboardingModal.press_goal g (OnboardingModal.press_goal g data)
            = OnboardingModal.press_goal g data
         /\ gender (OnboardingModal.press_goal g data) = gender data
         /\ activity (OnboardingModal.press_goal g data) = activity data)
  /\ (forall l : ActivityLevel,
         activity (OnboardingModal.press_activity l data) = l
         /\ OnboardingModal.press_activity l
              (OnboardingModal.press_activity l data)
            = OnboardingModal.press_activity l data
         /\ gender (OnboardingModal.press_activity l data) = gender data
         /\ goal (OnboardingModal.press_activity l data) = goal data).
Proof.
  unfold OnboardingModal.press_gender, OnboardingModal.press_goal,
    OnboardingModal.press_activity. cbv zeta.
  split; [| split]; intros x.
  - destruct (bool_decide (gender data = x)) eqn:E; cbn [negb].
    + apply bool_decide_eq_true in E. rewrite E.
      rewrite bool_decide_eq_true_2 by reflexivity. repeat split.
    + cbn [gender]. rewrite bool_decide_eq_true_2 by reflexivity.
      repeat split.
  - destruct (bool_decide (goal data = x)) eqn:E; cbn [negb].
    + apply bool_decide_eq_true in E. rewrite E.
      rewrite bool_decide_eq_true_2 by reflexivity. repeat split.
    + cbn [goal]. rewrite bool_decide_eq_true_2 by reflexivity.
      repeat split.
  - destruct (bool_decide (activity data = x)) eqn:E; cbn [negb].
    + apply bool_decide_eq_true in E. rewrite E.
      rewrite bool_decide_eq_true_2 by reflexivity. repeat split.
    + cbn [activity]. rewrite bool_decide_eq_true_2 by reflexivity.
      repeat split.
Qed.

(** ** The effects of [App] *)

Section EffectFacts.

Variable toString36 : Q -> string.

Variable json : JSON.

Variable Number : string -> Z.

Lemma truthy_true (v : option string) :
  truthy v = true <-> exists t : string, v = Some t /\ t <> "".
Proof.
  destruct v as [t |]; cbn.
  - rewrite negb_true_iff, String.eqb_neq. split.
    + intros H. now exists t.
    + now intros (t' & [= ->] & H).
  - split; [discriminate | now intros (t & H & _)].
Qed.

(** X23.  When the storage holds no profile (or an empty text under its
    key), mounting sets the default profile, makes a fresh day from it and
    shows the onboarding modal; the streak stays 0 whatever the storage
    holds under the streak key, and nothing is written. *)
Theorem mount_first_run (today : string) (m : gmap string string) (s : Draws) :
  truthy (m !! K.onboarding) = false ->
  let r := (mount toString36 json Number today (initial m) s).1 in
  st_onb r = Some defaults
  /\ showOnboarding r = true
  /\ st_day (cells r) = Some (initDay toString36 today defaults s).1
  /\ st_streak (cells r) = 0%Z
  /\ storage (cells r) = m.
Proof.
  intros H. cbv zeta. unfold mount, KVStorage.getItem.
  cbn [cells initial storage]. rewrite H. cbn [negb].
  unfold mbind at 1, Rand_bind, mret, Rand_ret. cbn [fst].
  repeat split.
Qed.

(** X24.  A day written by the persist effect comes back on the next
    mount of the same date: with a stored profile that parses and a day
    text that is not empty and parses back to the day, mounting over the
    storage that [persist] leaves loads exactly that day, with the stored
    profile, without showing the modal, without drawing a new plan and
    without writing. *)
Theorem mount_restores_persisted_day (today : string) (a : App)
    (d : DayData) (saved : string) (p : OnboardingData) (s : Draws) :
  st_day a = Some d -> date d = today ->
  storage a !! K.onboarding = Some saved -> saved <> "" ->
  parse_onb json saved = Some p ->
  stringify_day json d <> "" ->
  parse_day json (stringify_day json d) = Some d ->
  let m := storage (persist json a) in
  let run := mount toString36 json Number today (initial m) s in
  st_day (cells run.1) = Some d
  /\ st_onb run.1 = Some p
  /\ showOnboarding run.1 = false
  /\ storage (cells run.1) = m
  /\ run.2 = s.
Proof.
  intros Hday Hdate Hsaved Hne Hp Hdne Hparse. cbv zeta.
  unfold persist. rewrite Hday. cbn [storage]. rewrite Hdate.
  unfold mount, KVStorage.getItem, KVStorage.setItem.
  cbn [cells initial storage st_streak alerts showOnboarding].
  rewrite (lookup_insert_ne (storage a) (K.day today) K.onboarding)
    by apply K_day_not_onboarding.
  rewrite Hsaved. rewrite (truthy_record _ Hne). cbn [negb mbind option_bind].
  rewrite Hp. rewrite lookup_insert_eq. rewrite (truthy_record _ Hdne).
  cbn [mbind option_bind]. rewrite Hparse.
  unfold mret, Rand_ret. cbn [fst snd cells st_day st_onb showOnboarding storage].
  repeat split.
Qed.

(** X25.  A stored profile that does not parse leaves the application as
    it was mounted, with no profile and no day; a stored day that does not
    parse leaves the profile set but no day and the streak at 0.  Neither
    is replaced by a fresh value. *)
Theorem mount_unparsable (today : string) (m : gmap string string)
    (saved : string) (s : Draws) :
  m !! K.onboarding = Some saved -> saved <> "" ->
  (parse_onb json saved = None ->
   (mount toString36 json Number today (initial m) s).1 = initial m)
  /\ (forall (p : OnboardingData) (savedDay : string),
         parse_onb json saved = Some p ->
         m !! K.day today = Some savedDay -> savedDay <> "" ->
         parse_day json savedDay = None ->
         let r := (mount toString36 json Number today (initial m) s).1 in
         st_onb r = Some p /\ st_day (cells r) = None
         /\ st_streak (cells r) = 0%Z).
Proof.
  intros Hsaved Hne. unfold mount, KVStorage.getItem.
  cbn [cells initial storage st_streak alerts showOnboarding].
  rewrite Hsaved, (truthy_record _ Hne). cbn [negb mbind option_bind].
  split.
  - intros ->. reflexivity.
  - intros p savedDay -> -> Hdne Hnone. rewrite (truthy_record _ Hdne).
    cbn [mbind option_bind]. rewrite Hnone. repeat split.
Qed.

(** X26.  With a stored profile that parses and no record for today (or
    an empty text under its key), mounting makes a fresh day from the
    stored profile, never from an earlier date's record, and takes the
    streak from the text under the streak key, or 0 when there is none. *)
Theorem mount_new_day (today : string) (m : gmap string string)
    (saved : string) (p : OnboardingData) (s : Draws) :
  m !! K.onboarding = Some saved -> saved <> "" ->
  parse_onb json saved = Some p ->
  truthy (m !! K.day today) = false ->
  let r := (mount toString36 json Number today (initial m) s).1 in
  st_onb r = Some p
  /\ st_day (cells r) = Some (initDay toString36 today p s).1
  /\ (forall t : string,
         m !! K.streak = Some t -> t <> "" ->
         st_streak (cells r) = Number t)
  /\ (m !! K.streak = None -> st_streak (cells r) = 0%Z)
  /\ storage (cells r) = m.
Proof.
  intros Hsaved Hne Hp Hday. cbv zeta. unfold mount, KVStorage.getItem.
  cbn [cells initial storage st_streak alerts showOnboarding].
  rewrite Hsaved, (truthy_record _ Hne). cbn [negb mbind option_bind].
  rewrite Hp, Hday.
  unfold mbind, Rand_bind, mret, Rand_ret.
  cbn [fst cells st_day st_onb st_streak storage].
  split; [reflexivity |]. split; [reflexivity |]. split; [| split].
  - intros t -> Ht. now rewrite (truthy_record _ Ht).
  - now intros ->.
  - reflexivity.
Qed.

(** X27.  Closing the onboarding modal, with the save button or with the
    close button, replaces the day by a fresh one for the resulting
    profile: the water, the calories eaten and the flags of the day so far
    are gone and the steps are back at 2500.  The close button keeps the
    profile, the save button takes the edited one; either way the profile
    is written under the onboarding key, the modal is hidden and the
    streak is kept. *)
Theorem onClose_resets_day (today : string) (data : option OnboardingData)
    (r : Root) (onb : OnboardingData) (s : Draws) :
  st_onb r = Some onb ->
  let merged := default onb data in
  let r' := (onClose toString36 json today data r s).1 in
  st_onb r' = Some merged
  /\ showOnboarding r' = false
  /\ st_day (cells r') = Some (initDay toString36 today merged s).1
  /\ (exists d' : DayData,
         st_day (cells r') = Some d'
         /\ waterMl d' = 0 /\ steps d' = 2500 /\ kcalConsumed d' = 0
         /\ prayerDone d' = false /\ workoutDone d' = false)
  /\ st_streak (cells r') = st_streak (cells r)
  /\ storage (cells r')
     = <[K.onboarding := stringify_onb json merged]> (storage (cells r)).
Proof.
  intros Honb. cbv zeta. unfold onClose. rewrite Honb.
  unfold mbind, Rand_bind, mret, Rand_ret, KVStorage.setItem.
  cbn [fst cells st_day st_onb st_streak storage showOnboarding].
  split; [reflexivity |]. split; [reflexivity |]. split; [reflexivity |].
  split; [| split; reflexivity].
  eexists. split; [reflexivity |].
  destruct (initDay_fields toString36 today (default onb data) s)
    as (_ & _ & _ & Hst & _ & Hw & _ & Hk & _ & _ & Hp & Hwo).
  now rewrite Hst, Hw, Hk, Hp, Hwo.
Qed.

(** X28.  The persist effect writes the day under the key of the day's
    own date and touches no other key (the streak, the profile, the
    journals and the other days stay as stored); it changes no cell, and
    running it again changes nothing. *)
Theorem persist_writes_own_date (a : App) (d : DayData) :
  st_day a = Some d ->
  let a' := persist json a in
  storage a' !! K.day (date d) = Some (stringify_day json d)
  /\ (forall k : string,
         k <> K.day (date d) -> storage a' !! k = storage a !! k)
  /\ storage a' !! K.streak = storage a !! K.streak
  /\ storage a' !! K.onboarding = storage a !! K.onboarding
  /\ (forall x : string, storage a' !! K.journal x = storage a !! K.journal x)
  /\ st_day a' = st_day a /\ st_streak a' = st_streak a
  /\ persist json a' = a'.
Proof.
  intros Hday. cbv zeta. unfold persist, KVStorage.setItem. rewrite Hday.
  cbn [st_day st_streak storage alerts].
  assert (Hk : forall k : string, k <> K.day (date d) ->
               <[K.day (date d) := stringify_day json d]> (storage a) !! k
               = storage a !! k)
    by (intros k Hne; apply lookup_insert_ne; congruence).
  split; [apply lookup_insert_eq |]. split; [exact Hk |].
  split; [apply Hk; intros E; symmetry in E; now apply K_day_not_streak in E |].
  split;
    [apply Hk; intros E; symmetry in E; now apply K_day_not_onboarding in E |].
  split; [intros x; apply Hk; intros E; symmetry in E;
          now apply K_day_not_journal in E |].
  split; [reflexivity |]. split; [reflexivity |].
  f_equal. apply insert_insert_eq.
Qed.

(** X29.  Saving the journal writes the entry under today's journal key
    and touches neither the day records, the streak, the profile nor the
    journals of other dates; a later save on the same date replaces the
    entry. *)
Theorem saveJournal_writes_journal_only (today : string) (mood : Z)
    (note : string) (a : App) :
  let a' := saveJournal json today mood note a in
  storage a' !! K.journal today = Some (stringify_journal json mood note)
  /\ (forall d : string, storage a' !! K.day d = storage a !! K.day d)
  /\ storage a' !! K.streak = storage a !! K.streak
  /\ storage a' !! K.onboarding = storage a !! K.onboarding
  /\ (forall d : string,
         d <> today -> storage a' !! K.journal d = storage a !! K.journal d)
  /\ st_day a' = st_day a /\ st_streak a' = st_streak a
  /\ (forall (mood' : Z) (note' : string),
         storage (saveJournal json today mood' note' a')
         = storage (saveJournal json today mood' note' a)).
Proof.
  cbv zeta. unfold saveJournal, KVStorage.setItem.
  cbn [st_day st_streak storage alerts].
  split; [apply lookup_insert_eq |].
  split; [intros d; apply lookup_insert_ne; intros E; symmetry in E;
          now apply K_day_not_journal in E |].
  split; [apply lookup_insert_ne, K_journal_not_streak |].
  split; [apply lookup_insert_ne, K_journal_not_onboarding |].
  split; [intros d Hne; apply lookup_insert_ne; intros E;
          apply K_journal_inj in E; congruence |].
  split; [reflexivity |]. split; [reflexivity |].
  intros mood' note'. apply insert_insert_eq.
Qed.

End EffectFacts.

Lemma mount_first_run_empty_storage :
  truthy ((<[K.streak := "7"]> ∅ : gmap string string) !! K.onboarding) = false
  /\ st_onb (mount base36_half toy_json seven "2025-01-01"
               (initial (<[K.streak := "7"]> ∅)) halves).1
     = Some defaults
  /\ st_streak (cells (mount base36_half toy_json seven "2025-01-01"
                         (initial (<[K.streak := "7"]> ∅)) halves).1)
     = 0%Z.
Proof.
  assert (H : truthy ((<[K.streak := "7"]> ∅ : gmap string string)
                        !! K.onboarding) = false)
    by (vm_compute; reflexivity).
  destruct (mount_first_run base36_half toy_json seven "2025-01-01"
              (<[K.streak := "7"]> ∅) halves H) as (H1 & _ & _ & H4 & _).
  split; [exact H |]. split; [exact H1 | exact H4].
Defined.

Lemma mount_restores_persisted_day_base :
  with_profile !! K.onboarding = Some "{onb}"
  /\ parse_day toy_json (stringify_day toy_json base) = Some base
  /\ st_day (cells (mount base36_half toy_json seven "2025-01-01"
                      (initial (storage (persist toy_json
                                           (session base 0 with_profile))))
                      halves).1)
     = Some base.
Proof.
  assert (Hs : with_profile !! K.onboarding = Some "{onb}")
    by (vm_compute; reflexivity).
  assert (Hp : parse_day toy_json (stringify_day toy_json base) = Some base)
    by reflexivity.
  split; [exact Hs |]. split; [exact Hp |].
  refine (proj1 (mount_restores_persisted_day base36_half toy_json seven
                   "2025-01-01" (session base 0 with_profile) base "{onb}"
                   defaults halves eq_refl eq_refl Hs _ eq_refl _ Hp));
    discriminate.
Defined.

Lemma mount_unparsable_profile :
  with_profile !! K.onboarding = Some "{onb}"
  /\ parse_onb rejecting_json "{onb}" = None
  /\ (mount base36_half rejecting_json seven "2025-01-01"
        (initial with_profile) halves).1
     = initial with_profile.
Proof.
  assert (Hs : with_profile !! K.onboarding = Some "{onb}")
    by (vm_compute; reflexivity).
  split; [exact Hs |]. split; [reflexivity |].
  refine (proj1 (mount_unparsable base36_half rejecting_json seven
                   "2025-01-01" with_profile "{onb}" halves Hs _) eq_refl).
  discriminate.
Defined.

Lemma mount_new_day_with_streak :
  with_profile_and_streak !! K.onboarding = Some "{onb}"
  /\ truthy (with_profile_and_streak !! K.day "2025-01-01") = false
  /\ with_profile_and_streak !! K.streak = Some "7"
  /\ st_streak (cells (mount base36_half toy_json seven "2025-01-01"
                         (initial with_profile_and_streak) halves).1)
     = seven "7".
Proof.
  assert (Hs : with_profile_and_streak !! K.onboarding = Some "{onb}")
    by (vm_compute; reflexivity).
  assert (Hd : truthy (with_profile_and_streak !! K.day "2025-01-01") = false)
    by (vm_compute; reflexivity).
  assert (Ht : with_profile_and_streak !! K.streak = Some "7")
    by (vm_compute; reflexivity).
  split; [exact Hs |]. split; [exact Hd |]. split; [exact Ht |].
  assert (Hne : "{onb}" <> "") by discriminate.
  destruct (mount_new_day base36_half toy_json seven "2025-01-01"
              with_profile_and_streak "{onb}" defaults halves Hs Hne eq_refl Hd)
    as (_ & _ & Hstreak & _).
  apply (Hstreak "7" Ht). discriminate.
Defined.

Lemma onClose_resets_day_close_button :
  st_onb editing = Some defaults
  /\ st_day (cells (onClose base36_half toy_json "2025-01-01" None editing
                      halves).1)
     = Some (initDay base36_half "2025-01-01" defaults halves).1.
Proof.
  assert (H : st_onb editing = Some defaults) by reflexivity.
  split; [exact H |].
  exact (proj1 (proj2 (proj2 (onClose_resets_day base36_half toy_json
                                "2025-01-01" None editing defaults halves H)))).
Defined.

Lemma persist_writes_own_date_base :
  st_day (session base 4 with_profile) = Some base
  /\ storage (persist toy_json (session base 4 with_profile))
       !! K.day (date base)
     = Some (stringify_day toy_json base)
  /\ K.onboarding <> K.day (date base)
  /\ storage (persist toy_json (session base 4 with_profile)) !! K.onboarding
     = with_profile !! K.onboarding.
Proof.
  assert (Hd : st_day (session base 4 with_profile) = Some base) by reflexivity.
  assert (Hne : K.onboarding <> K.day (date base))
    by (intros E; symmetry in E; now apply K_day_not_onboarding in E).
  destruct (persist_writes_own_date toy_json (session base 4 with_profile)
              base Hd) as (H1 & H2 & _).
  split; [exact Hd |]. split; [exact H1 |]. split; [exact Hne |].
  exact (H2 K.onboarding Hne).
Defined.

Lemma saveJournal_writes_journal_only_other_date :
  "2024-12-31" <> "2025-01-01"
  /\ storage (saveJournal toy_json "2025-01-01" 4 "calm"
                (session base 4 with_profile)) !! K.journal "2024-12-31"
     = with_profile !! K.journal "2024-12-31".
Proof.
  assert (Hne : "2024-12-31" <> "2025-01-01") by discriminate.
  split; [exact Hne |].
  exact (proj1 (proj2 (proj2 (proj2 (proj2
           (saveJournal_writes_journal_only toy_json "2025-01-01" 4 "calm"
              (session base 4 with_profile))))))
           "2024-12-31" Hne).
Defined.

(** ** The figures of the home screen *)

Lemma floor_ge (n : Z) (y : Q) : (n <= Qfloor y)%Z <-> inject_Z n <= y.
Proof.
  split; intros H.
  - apply Qle_trans with (inject_Z (Qfloor y)); [| apply Qfloor_le].
    now rewrite <- Zle_Qle.
  - rewrite <- (Qfloor_Z n). now apply Qfloor_resp_le.
Qed.

(** X30.  The remaining-calories figure is never negative, is zero
    exactly when the calories eaten have reached the target, and exceeds
    300 exactly when the protein-snack rule of the nudge does; the water
    figure is never above 100, is not negative when the water is not, and
    reads 100 exactly from 99.5 percent of the target on. *)
Theorem HomeScreen_figures (day : DayData) :
  0 <= HomeScreen.leftKcal day
  /\ (HomeScreen.leftKcal day == 0 <-> kcalTarget day <= kcalConsumed day)
  /\ (300 < HomeScreen.leftKcal day
      <-> 300 < kcalTarget day - kcalConsumed day)
  /\ HomeScreen.waterPct day <= 100
  /\ (0 <= waterMl day -> 0 <= HomeScreen.waterPct day)
  /\ (HomeScreen.waterPct day == 100
      <-> 99.5 <= waterMl day / Math.max 1 (waterTarget day) * 100).
Proof.
  unfold HomeScreen.leftKcal, HomeScreen.waterPct, Math.max, Math.min.
  fold (Math.max 1 (waterTarget day)).
  split; [apply Q.le_max_l |]. split; [| split; [| split; [| split]]].
  - rewrite Q.max_l_iff. split; intros H; lra.
  - rewrite Q.max_lt_iff. split; [intros [H | H]; [discriminate H | exact H] |].
    intros H. now right.
  - apply Q.le_min_l.
  - intros Hw. apply Q.min_glb; [discriminate |].
    change 0 with (inject_Z 0). rewrite <- Zle_Qle.
    apply (Z.le_trans _ (Math.round 0)); [exact (Z.le_refl 0) |].
    apply round_mono.
    apply Qmult_le_0_compat; [| discriminate].
    apply Qmult_le_0_compat; [assumption |].
    apply Qinv_le_0_compat, Qlt_le_weak, max1_pos.
  - rewrite Q.min_l_iff. change 100 with (inject_Z 100) at 1.
    rewrite <- Zle_Qle. unfold Math.round. rewrite floor_ge.
    change (inject_Z 100) with 100. split; intros H; lra.
Qed.

Lemma HomeScreen_figures_base :
  0 <= waterMl base_perfect /\ 0 <= HomeScreen.waterPct base_perfect.
Proof.
  assert (H : 0 <= waterMl base_perfect) by discriminate.
  split; [exact H |].
  exact (proj1 (proj2 (proj2 (proj2 (proj2 (HomeScreen_figures base_perfect)))))
           H).
Defined.
